(** * Orchardmapping: archive validation, tile serving and tree identifiers

    A shallow embedding of
    - the tile route [GET /api/tiles/[orchard]/[z]/[x]/[y]],
    - the upload route [POST /api/orchards/create] with its
      [validatePMTilesFile] and [updateOrchardsConfig] helpers,
    - [validatePMTiles] of [lib/pmtiles-utils.ts],
    - [generateTreeId], [checkDuplicateRowPosition] and [insertTree] of
      [lib/db/trees.ts],
    - the tile-type table of the PMTiles type-check script,
    and the properties of them that the specification states. *)

From Stdlib Require Import ZArith QArith Qround Lia Lqa Bool.
From Stdlib Require Import Strings.Ascii Strings.String Strings.Byte.
From stdpp Require Import gmap strings list pretty.

Local Open Scope string_scope.
Local Open Scope Z_scope.

(** ** JavaScript values the modelled code computes with *)

Module Js.

(** Strings are sequences of code units, each below 256: the requests the
    model covers are those whose texts use no other character. *)

(** A number that [parseInt] returns: [NaN], a finite double with an
    integer value, given by that value, or an infinity. *)
Inductive Num : Type :=
  | NaN
  | Int (n : Z)
  | Infinity (negative : bool).

(** [Number.MAX_SAFE_INTEGER]: up to it every integer is a double and is
    printed digit by digit. *)
Definition MAX_SAFE_INTEGER : Z := 2 ^ 53 - 1.

(** The double nearest to a natural number, ties to the even significand of
    53 bits; [None] from 2^1024 - 2^970 on, where the result is infinite. *)
Definition nearestDouble (n : Z) : option Z :=
  if n <? 2 ^ 53 then Some n
  else
    let e := Z.log2 n - 52 in
    let q := n / 2 ^ e in
    let r := n mod 2 ^ e in
    let half := 2 ^ (e - 1) in
    let q' := if r <? half then q
              else if half <? r then q + 1
              else if Z.even q then q else q + 1 in
    if q' * 2 ^ e <? 2 ^ 1024 then Some (q' * 2 ^ e) else None.

(** The number value of [sign * n], for the digits [n] that were read. *)
Definition toNumber (sign n : Z) : Num :=
  match nearestDouble n with
  | Some v => Int (sign * v)
  | None => Infinity (sign <? 0)
  end.

(** The decimal [c] reads back as the double [m]. *)
Definition reads_as (m c : Z) : bool := bool_decide (nearestDouble c = Some m).

(** The digits that [Number.prototype.toString] gives a double [m] above
    2^53: the multiple of a power of ten with the fewest significant digits
    that reads back as [m]; of two, the nearer to [m]; of two equally near,
    the even one.  [k] counts the significant digits tried. *)
Fixpoint shortest_from (fuel : nat) (m digits k : Z) : Z :=
  match fuel with
  | O => m
  | S fuel' =>
      let p := 10 ^ (digits - k) in
      let lo := m / p * p in
      let hi := lo + p in
      match reads_as m lo, reads_as m hi with
      | true, true =>
          if m - lo <? hi - m then lo
          else if hi - m <? m - lo then hi
          else if Z.even (lo / p) then lo else hi
      | true, false => lo
      | false, true => hi
      | false, false => shortest_from fuel' m digits (k + 1)
      end
  end.

Definition shortest (m : Z) : Z :=
  let digits := String.length (pretty m) in
  shortest_from digits m (Z.of_nat digits) 1.

Fixpoint dropZeros (reversed : string) : string :=
  match reversed with
  | String "0" rest => dropZeros rest
  | _ => reversed
  end.

(** The notation for 10^21 and above: [d.ddde+n]. *)
Definition exponential (c : Z) : string :=
  let digits := pretty c in
  let e := pretty (Z.of_nat (String.length digits) - 1) in
  match String.rev (dropZeros (String.rev digits)) with
  | String d EmptyString => String d ("e+" ++ e)
  | String d rest => String d ("." ++ rest ++ "e+" ++ e)
  | EmptyString => EmptyString
  end.

(** [`${n}`] for such a number. *)
Definition toString (n : Num) : string :=
  match n with
  | NaN => "NaN"
  | Int z =>
      if Z.abs z <=? MAX_SAFE_INTEGER then pretty z
      else
        let c := shortest (Z.abs z) in
        (if z <? 0 then "-" else EmptyString)
          ++ (if c <? 10 ^ 21 then pretty c else exponential c)
  | Infinity negative => if negative then "-Infinity" else "Infinity"
  end.

Definition code (c : ascii) : Z := Z.of_N (N_of_ascii c).

(** The white space that [parseInt] skips, among the code units below 256:
    TAB, LF, VT, FF, CR, SP and the no-break space. *)
Definition isWhiteSpace (c : ascii) : bool :=
  let n := code c in ((9 <=? n) && (n <=? 13)) || (n =? 32) || (n =? 160).

Fixpoint trimStart (s : string) : string :=
  match s with
  | String c s' => if isWhiteSpace c then trimStart s' else s
  | EmptyString => EmptyString
  end.

(** The value of a character as a digit: 0-9, then a-z and A-Z from 10. *)
Definition digitValue (c : ascii) : option Z :=
  let n := code c in
  if (48 <=? n) && (n <=? 57) then Some (n - 48)
  else if (97 <=? n) && (n <=? 122) then Some (n - 87)
  else if (65 <=? n) && (n <=? 90) then Some (n - 55)
  else None.

(** The longest prefix of digits of the radix, read most significant digit
    first; [None] when that prefix is empty. *)
Fixpoint readDigits (radix : Z) (s : string) (acc : option Z) : option Z :=
  match s with
  | String c s' =>
      match digitValue c with
      | Some d =>
          if d <? radix
          then readDigits radix s' (Some (radix * default 0 acc + d))
          else acc
      | None => acc
      end
  | EmptyString => acc
  end.

(** [parseInt(s)] without a radix argument: leading white space, an optional
    sign, an optional [0x]/[0X] prefix that selects radix 16, then digits;
    the result is the double nearest to the digits read. *)
Definition parseInt (s : string) : Num :=
  let s1 := trimStart s in
  let '(sign, s2) :=
    match s1 with
    | String "-" r => (-1, r)
    | String "+" r => (1, r)
    | _ => (1, s1)
    end in
  let '(radix, s3) :=
    match s2 with
    | String "0" (String "x" r) => (16, r)
    | String "0" (String "X" r) => (16, r)
    | _ => (10, s2)
    end in
  match readDigits radix s3 None with
  | None => NaN
  | Some n => toNumber sign n
  end.

(** [s.padStart(n, '0')]: zeros in front until the length is [n]. *)
Definition padStart0 (n : nat) (s : string) : string :=
  String.string_of_list_ascii (repeat "0"%char (n - String.length s)) ++ s.

(** The double quote, as a string. *)
Definition dq : string := String (ascii_of_N 34) EmptyString.

(** A settled promise: the value it resolves to, or the message of the
    error it rejects with. *)
Inductive Settled (A : Type) : Type :=
  | Resolved (a : A)
  | Rejected (message : string).
Arguments Resolved {A} a.
Arguments Rejected {A} message.

(** [path.join(dir, rel)] for a relative path without dots. *)
Definition path_join (dir rel : string) : string := dir ++ "/" ++ rel.

End Js.

(** ** The tile route *)

Module TileServer.
Import Js.

(** A row of the [tiles] table of an MBTiles database.  [tile_data] is a
    blob or NULL. *)
Record TileRow : Type := mkTileRow {
  zoom_level : Z;
  tile_column : Z;
  tile_row : Z;
  tile_data : option (list byte)
}.

(** What the handler sees of its environment: the working directory and the
    SQLite databases on disk, each either failing with a message when it is
    opened or queried, or holding a [tiles] table. *)
Record World : Type := mkWorld {
  cwd : string;
  databases : gmap string (string + list TileRow)
}.

(** The value of the property read [MBTILES_PATHS[orchard]]. *)
Inductive PropValue : Type :=
  | Undefined
  | PathString (p : string)
  | Inherited (name : string).

(** The own properties of [MBTILES_PATHS]. *)
Definition MBTILES_PATHS (w : World) : gmap string string :=
  <["manytrees" := path_join (cwd w) "public/orchards/manytreesorchard/manytrees.mbtiles"]>
  (<["washington" := path_join (cwd w) "public/orchards/washington/tiles/orthomap.mbtiles"]> ∅).

(** [MBTILES_PATHS] is an object literal, so a property read that finds no
    own property goes on to [Object.prototype], whose members are these. *)
Definition Object_prototype : list string :=
  [ "constructor"; "__defineGetter__"; "__defineSetter__"; "hasOwnProperty";
    "__lookupGetter__"; "__lookupSetter__"; "isPrototypeOf";
    "propertyIsEnumerable"; "toString"; "valueOf"; "__proto__";
    "toLocaleString" ].

Definition get_property (w : World) (orchard : string) : PropValue :=
  match MBTILES_PATHS w !! orchard with
  | Some p => PathString p
  | None =>
      if bool_decide (orchard ∈ Object_prototype)
      then Inherited orchard
      else Undefined
  end.

(** [!v]: [undefined] and the empty string are falsy; a non-empty string,
    a function and an object are truthy. *)
Definition falsy (v : PropValue) : bool :=
  match v with
  | Undefined => true
  | PathString p => bool_decide (p = EmptyString)
  | Inherited _ => false
  end.

(** [zoom_level = ? AND tile_column = ? AND tile_row = ?]: a NaN parameter
    is bound as NULL, which equals nothing. *)
Definition matches (zoom tileX tmsY : Num) (row : TileRow) : bool :=
  match zoom, tileX, tmsY with
  | Int z, Int x, Int y =>
      (zoom_level row =? z) && (tile_column row =? x) && (tile_row row =? y)
  | _, _, _ => false
  end.

(** [db.get]: the first row of the result, if any. *)
Definition db_get (rows : list TileRow) (zoom tileX tmsY : Num) : option TileRow :=
  List.find (matches zoom tileX tmsY) rows.

(** The promise around [new Database(mbtilesPath, ...)] and [db.get].
    sqlite3 throws a [TypeError] for a file name that is not a string.  For
    a path with no database file the promise rejects as well: the file is
    created empty and the query finds no table. *)
Definition query (w : World) (mbtilesPath : PropValue) (zoom tileX tmsY : Num)
  : Settled (option (list byte)) :=
  match mbtilesPath with
  | PathString p =>
      match databases w !! p with
      | Some (inl message) => Rejected message
      | Some (inr rows) =>
          match db_get rows zoom tileX tmsY with
          | None => Resolved None
          | Some row => Resolved (tile_data row)
          end
      | None => Rejected "SQLITE_ERROR: no such table: tiles"
      end
  | _ => Rejected "String expected"
  end.

Inductive Body : Type :=
  | Text (s : string)
  | Binary (data : list byte).

Record Response : Type := mkResponse {
  status : Z;
  body : Body;
  headers : list (string * string)
}.

Definition text_response (s : string) (st : Z) : Response :=
  {| status := st; body := Text s; headers := [] |}.

Definition byte_is (data : list byte) (i : nat) (b : byte) : bool :=
  match data !! i with
  | Some c => Byte.eqb c b
  | None => false
  end.

(** The content type chosen from the tile data. *)
Definition contentType (tileData : list byte) : string :=
  if byte_is tileData 0 x89 && byte_is tileData 1 x50 then "image/png"
  else if byte_is tileData 0 xff && byte_is tileData 1 xd8 then "image/jpeg"
  else if byte_is tileData 0 x52 && byte_is tileData 1 x49 then "image/webp"
  else "application/octet-stream".

(** The row the handler asks the database for. *)
Definition tmsY_of (tileY : Num) : Num := tileY.

Definition GET (w : World) (orchard z x y : string) : Response :=
  let mbtilesPath := get_property w orchard in
  if falsy mbtilesPath
  then text_response ("Orchard '" ++ orchard ++ "' not found") 404
  else
    let zoom := parseInt z in
    let tileX := parseInt x in
    let tileY := parseInt y in
    let tmsY := tmsY_of tileY in
    match query w mbtilesPath zoom tileX tmsY with
    | Rejected message =>
        text_response
          (if bool_decide (message = EmptyString) then "Internal server error" else message)
          500
    | Resolved None =>
        text_response
          ("Tile not found: " ++ toString zoom ++ "/" ++ toString tileX ++ "/"
             ++ toString tileY ++ " (TMS: " ++ toString tmsY ++ ")")
          404
    | Resolved (Some tileData) =>
        {| status := 200;
           body := Binary tileData;
           headers :=
             [ ("Content-Type", contentType tileData);
               ("Cache-Control", "public, max-age=31536000, immutable");
               ("Access-Control-Allow-Origin", "*") ] |}
    end.

(** *** What the specification says, and sample data *)

(** The two conventions for numbering the rows of a zoom level, and the row
    an archive stores a requested row under, as the specification words
    them. *)
Inductive RowConvention : Type :=
  | OriginNorthWest
  | OriginSouthWest.

Definition reconcile_row_spec (c : RowConvention) (N r : Z) : Z :=
  match c with
  | OriginNorthWest => r
  | OriginSouthWest => N - 1 - r
  end.

(** The content type the specification assigns to the leading bytes of a
    tile. *)
Definition magic_type (leading : list byte) : string :=
  match leading with
  | [x89; x50] => "image/png"
  | [xff; xd8] => "image/jpeg"
  | [x52; x49] => "image/webp"
  | _ => "application/octet-stream"
  end.

Definition tile_response (tileData : list byte) (type : string) : Response :=
  {| status := 200;
     body := Binary tileData;
     headers :=
       [ ("Content-Type", type);
         ("Cache-Control", "public, max-age=31536000, immutable");
         ("Access-Control-Allow-Origin", "*") ] |}.

(** A database of the washington archive that holds one tile, at zoom 1,
    column 0 and stored row 1. *)
Definition south_west_tile : TileRow :=
  {| zoom_level := 1; tile_column := 0; tile_row := 1;
     tile_data := Some [x89; x50; x4e; x47] |}.

Definition south_west_world : World :=
  {| cwd := "/app";
     databases :=
       {[ "/app/public/orchards/washington/tiles/orthomap.mbtiles" :=
            inr [south_west_tile] ]} |}.

Definition not_found_text (zoom tileX tileY : Num) : string :=
  "Tile not found: " ++ toString zoom ++ "/" ++ toString tileX ++ "/"
    ++ toString tileY ++ " (TMS: " ++ toString tileY ++ ")".

End TileServer.

(** ** The tile-type table of the PMTiles type-check script *)

Module TypeCheckScript.

(** The [types] table: the name of each tile-type code of an archive. *)
Definition types (tileType : Z) : option string :=
  if tileType =? 0 then Some "Unknown"
  else if tileType =? 1 then Some "MVT (Mapbox Vector Tiles)"
  else if tileType =? 2 then Some "PNG"
  else if tileType =? 3 then Some "JPEG"
  else if tileType =? 4 then Some "WEBP"
  else if tileType =? 5 then Some "AVIF"
  else None.

Inductive Verdict : Type :=
  | VectorData
  | RasterData
  | UnknownTileType.

(** The script's verdict: code 1 is vector data, codes 2 to 5 are imagery. *)
Definition verdict (tileType : Z) : Verdict :=
  if tileType =? 1 then VectorData
  else if (2 <=? tileType) && (tileType <=? 5) then RasterData
  else UnknownTileType.

End TypeCheckScript.

(** ** Validation of an uploaded archive *)

Module Upload.
Import Js.

(** [s.includes(needle)]. *)
Fixpoint startsWith (s needle : string) : bool :=
  match needle, s with
  | EmptyString, _ => true
  | String a needle', String b s' => Ascii.eqb a b && startsWith s' needle'
  | String _ _, EmptyString => false
  end.

Fixpoint includes (s needle : string) : bool :=
  startsWith s needle ||
  match s with
  | String _ s' => includes s' needle
  | EmptyString => false
  end.

(** The header as the route declares it.  The pmtiles library decodes the
    zooms and the tile type from single bytes and the coordinates from
    32-bit integers divided by 10^7, so zooms and tile type are integers and
    coordinates are rationals.  The fields the code tests against
    [undefined] or reads through [??] may be absent ([None]). *)
Record PMTilesHeader : Type := mkHeader {
  minZoom : Z;
  maxZoom : Z;
  minLon : option Q;
  minLat : option Q;
  maxLon : option Q;
  maxLat : option Q;
  centerZoom : Z;
  centerLon : option Q;
  centerLat : option Q;
  tileType : Z
}.

Inductive TileKind : Type :=
  | raster
  | vector.

Record Bounds : Type := mkBounds {
  minLng : Q;
  b_minLat : Q;
  maxLng : Q;
  b_maxLat : Q
}.

Record Center : Type := mkCenter {
  lng : Q;
  lat : Q
}.

Record Metadata : Type := mkMetadata {
  bounds : Bounds;
  center : Center;
  md_minZoom : Z;
  md_maxZoom : Q;
  md_tileType : TileKind
}.

Record ValidationResult : Type := mkResult {
  valid : bool;
  error : option string;
  warnings : option (list string);
  metadata : option Metadata
}.

Definition invalid (message : string) : ValidationResult :=
  {| valid := false; error := Some message; warnings := None; metadata := None |}.

(** [Math.min] on two numbers. *)
Definition Math_min (a b : Q) : Q := if Qle_bool a b then a else b.

(** [a > b]. *)
Definition Qgt_bool (a b : Q) : bool := negb (Qle_bool a b).

Definition vector_warning : string :=
  "Vector PMTiles detected. This endpoint is optimized for raster/imagery tiles.".

Definition world_warning : string :=
  "PMTiles appears to have world bounds. This may indicate incorrect georeferencing.".

Definition zoom_warning (h : PMTilesHeader) : string :=
  "Max zoom capped at 21.5 (was " ++ pretty (maxZoom h)
    ++ ") to prevent map rendering issues.".

Definition unsupported_error (h : PMTilesHeader) : string :=
  "Unsupported tile type: " ++ pretty (tileType h)
    ++ ". Expected raster (1) or vector (2).".

(** The tile-type check: the kind and the warnings pushed so far, or
    nothing when the type is refused. *)
Definition check_tile_type (h : PMTilesHeader) : option (TileKind * list string) :=
  if tileType h =? 1 then Some (raster, [])
  else if tileType h =? 2 then Some (vector, [vector_warning])
  else None.

Definition is_world (minLon maxLon minLat maxLat : Q) : bool :=
  Qle_bool minLon (-180) && Qle_bool 180 maxLon &&
  Qle_bool minLat (-85) && Qle_bool 85 maxLat.

(** [warnings.length > 0 ? warnings : undefined]. *)
Definition nonempty (ws : list string) : option (list string) :=
  match ws with
  | [] => None
  | _ => Some ws
  end.

(** [validatePMTilesFile], on the outcome of [pmtiles.getHeader()] for the
    file: a header, a falsy value, or an exception. *)
Definition validatePMTilesFile (got : Settled (option PMTilesHeader))
  : ValidationResult :=
  match got with
  | Rejected message => invalid ("Failed to validate PMTiles: " ++ message)
  | Resolved None => invalid "Could not read PMTiles header"
  | Resolved (Some header) =>
      match check_tile_type header with
      | None => invalid (unsupported_error header)
      | Some (tileType, warnings1) =>
          match minLon header, minLat header, maxLon header, maxLat header with
          | Some minLon, Some minLat, Some maxLon, Some maxLat =>
              let warnings2 :=
                if is_world minLon maxLon minLat maxLat
                then (warnings1 ++ [world_warning])%list
                else warnings1 in
              let centerLng := default ((minLon + maxLon) / 2)%Q (centerLon header) in
              let centerLat := default ((minLat + maxLat) / 2)%Q (centerLat header) in
              let maxZoom' := Math_min (inject_Z (maxZoom header)) 21.5 in
              let warnings3 :=
                if Qgt_bool (inject_Z (maxZoom header)) 21.5
                then (warnings2 ++ [zoom_warning header])%list
                else warnings2 in
              {| valid := true;
                 error := None;
                 warnings := nonempty warnings3;
                 metadata := Some
                   {| bounds := {| minLng := minLon; b_minLat := minLat;
                                   maxLng := maxLon; b_maxLat := maxLat |};
                      center := {| lng := centerLng; lat := centerLat |};
                      md_minZoom := minZoom header;
                      md_maxZoom := maxZoom';
                      md_tileType := tileType |} |}
          | _, _, _, _ => invalid "PMTiles file does not contain valid geographic bounds"
          end
      end
  end.

(** *** The upload route *)

(** [name.toLowerCase()], for names written in ASCII. *)
Definition lower (c : ascii) : ascii :=
  let n := code c in
  if (65 <=? n) && (n <=? 90) then ascii_of_N (Z.to_N (n + 32)) else c.

Fixpoint toLowerCase (s : string) : string :=
  match s with
  | String c s' => String (lower c) (toLowerCase s')
  | EmptyString => EmptyString
  end.

(** The class [[a-z0-9]]. *)
Definition isLowerAlnum (c : ascii) : bool :=
  let n := code c in
  ((97 <=? n) && (n <=? 122)) || ((48 <=? n) && (n <=? 57)).

(** [.replace(/[^a-z0-9]+/g, '-')]: every maximal run of other characters
    becomes one dash.  [inRun] tells that the previous character was one. *)
Fixpoint replaceRuns (s : string) (inRun : bool) : string :=
  match s with
  | String c s' =>
      if isLowerAlnum c then String c (replaceRuns s' false)
      else if inRun then replaceRuns s' true
      else String "-" (replaceRuns s' true)
  | EmptyString => EmptyString
  end.

Fixpoint dropDashes (s : string) : string :=
  match s with
  | String "-" s' => dropDashes s'
  | _ => s
  end.

(** [.replace(/^-+|-+$/g, '')]. *)
Definition trimDashes (s : string) : string :=
  String.rev (dropDashes (String.rev (dropDashes s))).

Definition orchardId_of (name : string) : string :=
  trimDashes (replaceRuns (toLowerCase name) false).

Definition endsWith (s suffix : string) : bool :=
  startsWith (String.rev s) (String.rev suffix).

(** [x.toFixed(2)] for [x >= 0]: the nearest multiple of 1/100, the larger
    one on a tie. *)
Definition toFixed2 (x : Q) : string :=
  let n := Qfloor (x * 100 + (1 # 2))%Q in
  pretty (n / 100) ++ "." ++ padStart0 2 (pretty (n mod 100)).

Record OrchardRow : Type := mkOrchardRow {
  id : string;
  name : string;
  location : string;
  center_lat : Q;
  center_lng : Q
}.

(** An entry of the [orchards] object of [lib/orchards.ts], with the values
    the route writes into it (their rendering as text is left out). *)
Record OrchardConfig : Type := mkOrchardConfig {
  cfg_id : string;
  cfg_name : string;
  cfg_location : string;
  cfg_center : Center;
  cfg_bounds : Bounds;
  cfg_defaultZoom : Z;
  cfg_minZoom : Z;
  cfg_maxZoom : Q;
  cfg_orthoPmtilesPath : string
}.

(** What the route reads and writes: the [orchards] table, the files on
    disk, and the [orchards] object of the configuration file ([None] when
    the file does not hold one). *)
Record State : Type := mkState {
  orchards_table : list OrchardRow;
  files : gmap string (list byte);
  registry : option (list OrchardConfig)
}.

Record File : Type := mkFile {
  file_name : string;
  file_data : list byte
}.

Definition size (f : File) : Z := Z.of_nat (length (file_data f)).

(** The request: whether [auth()] yields a session, and the form fields,
    each absent or present. *)
Record Request : Type := mkRequest {
  session : bool;
  form_name : option string;
  form_location : option string;
  form_pmtilesFile : option File
}.

(** The rest of the environment: the working directory, the clock, and the
    header the pmtiles library decodes from the bytes of a file. *)
Record Env : Type := mkEnv {
  cwd : string;
  now : Z;
  getHeader : list byte -> Settled (option PMTilesHeader)
}.

Inductive Details : Type :=
  | NoDetails
  | FieldDetails (name location pmtilesFile : option string)
  | TextDetails (text : string).

Record Created : Type := mkCreated {
  orchardId : string;
  message : string;
  created_warnings : option (list string);
  created_metadata : Metadata;
  fileSizeMB : string
}.

Inductive PostResponse : Type :=
  | Failure (status : Z) (error : string) (details : Details)
  | Success (created : Created).

(** [!s] on a form field read as a string. *)
Definition present (s : option string) : option string :=
  match s with
  | Some EmptyString => None
  | _ => s
  end.

Definition required (field : option string) (text : string) : option string :=
  match present field with
  | None => Some text
  | Some _ => None
  end.

(** [SELECT id FROM orchards WHERE id = ... LIMIT 1] has a row.  Failures
    of the database connection are left out, here and below. *)
Definition orchardExists (table : list OrchardRow) (i : string) : bool :=
  existsb (fun row => bool_decide (id row = i)) table.

(** The columns of the [orchards] table, as the schema declares them:
    [id VARCHAR(50)], [name VARCHAR(255)], [location VARCHAR(255)],
    [center_lat DECIMAL(10, 8)] and [center_lng DECIMAL(11, 8)]. *)

(** A text holds the code unit 0, which the database takes in no
    parameter. *)
Fixpoint has_nul (s : string) : bool :=
  match s with
  | EmptyString => false
  | String c rest => (code c =? 0) || has_nul rest
  end.

(** A text is stored in a [VARCHAR(n)] column when it has at most [n]
    characters, or when those after the first [n] are all spaces. *)
Definition fits_varchar (n : nat) (s : string) : bool :=
  forallb (Ascii.eqb " "%char) (drop n (String.list_ascii_of_string s)).

(** A number is stored in a [DECIMAL(p, s)] column when its magnitude,
    rounded to [s] decimals with halves upwards, is below 10^(p-s). *)
Definition fits_decimal (p s : Z) (q : Q) : bool :=
  let magnitude := if Qle_bool 0 q then q else (- q)%Q in
  Qfloor (magnitude * inject_Z (10 ^ s) + (1 # 2))%Q <? 10 ^ p.

(** The error of [INSERT INTO orchards] for a row that the columns do not
    take, [None] when they take it. *)
Definition column_error (row : OrchardRow) : option string :=
  if has_nul (id row) || has_nul (name row) || has_nul (location row)
  then Some ("invalid byte sequence for encoding " ++ dq ++ "UTF8" ++ dq ++ ": 0x00")
  else if negb (fits_varchar 50 (id row))
  then Some "value too long for type character varying(50)"
  else if negb (fits_varchar 255 (name row)) || negb (fits_varchar 255 (location row))
  then Some "value too long for type character varying(255)"
  else if negb (fits_decimal 10 8 (center_lat row))
          || negb (fits_decimal 11 8 (center_lng row))
  then Some "numeric field overflow"
  else None.

(** [insertOrchard]: the new table, or the message of the error thrown.
    The table keeps the row as it was given; that the database cuts a text
    to the width of its column and rounds a number to the scale of its
    column is left out. *)
Definition insertOrchard (table : list OrchardRow) (row : OrchardRow)
  : Settled (list OrchardRow) :=
  if bool_decide (id row = EmptyString) || bool_decide (name row = EmptyString)
     || bool_decide (location row = EmptyString)
  then Rejected ("Failed to insert orchard: "
                 ++ "Missing required fields: id, name, and location are required")
  else if orchardExists table (id row)
  then Rejected ("Failed to insert orchard: "
                 ++ "Orchard with id " ++ dq ++ id row ++ dq ++ " already exists")
  else
    match column_error row with
    | Some message => Rejected ("Failed to insert orchard: " ++ message)
    | None => Resolved (table ++ [row])%list
    end.

(** [updateOrchardsConfig], as far as the route depends on it: it throws
    when the file holds no [orchards] object, and otherwise writes the
    file.  The text it writes is not modelled: the entry recorded here
    holds the values that text is built from. *)
Definition updateOrchardsConfig (reg : option (list OrchardConfig))
  (orchardId name location : string) (md : Metadata)
  : Settled (list OrchardConfig) :=
  match reg with
  | None => Rejected "Could not find orchards object in orchards.ts"
  | Some entries =>
      Resolved
        (entries ++
         [ {| cfg_id := orchardId;
              cfg_name := name;
              cfg_location := location;
              cfg_center := center md;
              cfg_bounds := bounds md;
              cfg_defaultZoom := Z.max 17 (md_minZoom md);
              cfg_minZoom := md_minZoom md;
              cfg_maxZoom := md_maxZoom md;
              cfg_orthoPmtilesPath :=
                "/orchards/" ++ orchardId ++ "/tiles/orthomap.pmtiles" |} ])%list
  end.

Definition tempFilePath (env : Env) : string :=
  path_join (path_join (cwd env) "tmp")
    ("temp-" ++ pretty (now env) ++ ".pmtiles").

Definition finalPath (env : Env) (orchardId : string) : string :=
  path_join (cwd env)
    ("public/orchards/" ++ orchardId ++ "/tiles/orthomap.pmtiles").

(** [fs.unlink(tempFilePath)] of the [finally] block; a missing file is
    ignored. *)
Definition unlink_temp (env : Env) (st : State) : State :=
  {| orchards_table := orchards_table st;
     files := delete (tempFilePath env) (files st);
     registry := registry st |}.

Definition failed (message : string) : PostResponse :=
  Failure 500 "Failed to create orchard" (TextDetails message).

(** The body of the inner [try], after the temporary file is written and
    validated; the [finally] block is applied by the caller. *)
Definition ingest (env : Env) (st : State) (orchardId name location : string)
  (file : File) (warnings0 : list string) (validation : ValidationResult)
  : PostResponse * State :=
  if negb (valid validation)
  then (Failure 400
          (default "Invalid PMTiles file" (present (error validation)))
          NoDetails, st)
  else
    let warnings := (warnings0 ++ default [] (warnings validation))%list in
    match metadata validation with
    | None =>
        (Failure 400 "Could not extract metadata from PMTiles file" NoDetails, st)
    | Some md =>
        let renamed :=
          <[finalPath env orchardId := file_data file]>
            (delete (tempFilePath env) (files st)) in
        let st1 := {| orchards_table := orchards_table st;
                      files := renamed;
                      registry := registry st |} in
        match insertOrchard (orchards_table st)
                {| id := orchardId; name := name; location := location;
                   center_lat := lat (center md); center_lng := lng (center md) |}
        with
        | Rejected message => (failed message, st1)
        | Resolved table =>
            let st2 := {| orchards_table := table;
                          files := renamed;
                          registry := registry st |} in
            match updateOrchardsConfig (registry st) orchardId name location md with
            | Rejected message => (failed message, st2)
            | Resolved entries =>
                (Success
                   {| orchardId := orchardId;
                      message := "Orchard " ++ dq ++ name ++ dq ++ " created successfully";
                      created_warnings := nonempty warnings;
                      created_metadata := md;
                      fileSizeMB := toFixed2 (inject_Z (size file) / 1048576)%Q |},
                 {| orchards_table := table;
                    files := renamed;
                    registry := Some entries |})
            end
        end
    end.

Definition POST (env : Env) (st : State) (req : Request) : PostResponse * State :=
  if negb (session req)
  then (Failure 401 "Unauthorized. Please sign in." NoDetails, st)
  else
    match present (form_name req), present (form_location req), form_pmtilesFile req with
    | Some name, Some location, Some pmtilesFile =>
        let orchardId := orchardId_of name in
        if bool_decide (orchardId = EmptyString)
        then (Failure 400 "Invalid orchard name. Please use alphanumeric characters."
                NoDetails, st)
        else if orchardExists (orchards_table st) orchardId
        then (Failure 409 "Orchard already exists"
                (TextDetails ("An orchard with ID " ++ dq ++ orchardId ++ dq
                              ++ " already exists. Please use a different name.")),
              st)
        else if negb (endsWith (toLowerCase (file_name pmtilesFile)) ".pmtiles")
        then (Failure 400 "Invalid file type. Please upload a .pmtiles file." NoDetails, st)
        else
          let fileSizeInMB := (inject_Z (size pmtilesFile) / 1048576)%Q in
          if Qgt_bool fileSizeInMB 2048
          then (Failure 413 "File too large"
                  (TextDetails ("File size is " ++ toFixed2 fileSizeInMB
                                ++ "MB. Maximum allowed size is 2GB.")),
                st)
          else
            let warnings0 :=
              if Qgt_bool fileSizeInMB 500
              then ["Large file detected (" ++ toFixed2 fileSizeInMB
                    ++ "MB). Upload may take some time."]
              else [] in
            let written :=
              {| orchards_table := orchards_table st;
                 files := <[tempFilePath env := file_data pmtilesFile]> (files st);
                 registry := registry st |} in
            let validation := validatePMTilesFile (getHeader env (file_data pmtilesFile)) in
            let '(response, st') :=
              ingest env written orchardId name location pmtilesFile warnings0 validation in
            (response, unlink_temp env st')
    | _, _, _ =>
        (Failure 400 "Missing required fields"
           (FieldDetails (required (form_name req) "Name is required")
                         (required (form_location req) "Location is required")
                         (match form_pmtilesFile req with
                          | None => Some "PMTiles file is required"
                          | Some _ => None
                          end)),
         st)
    end.

(** *** Predicates of the statements below, and sample data *)

(** The header passes the tile-type rule and the bounds-presence rule. *)
Definition passes_earlier_rules (h : PMTilesHeader) : bool :=
  match check_tile_type h, minLon h, minLat h, maxLon h, maxLat h with
  | Some _, Some _, Some _, Some _, Some _ => true
  | _, _, _, _, _ => false
  end.

(** The warnings of a result, as a list. *)
Definition warnings_of (r : ValidationResult) : list string :=
  default [] (warnings r).

(** An archive of the upload scenario: a small orchard near 48N 123W. *)
Definition orchard_header (type maxZ : Z) : PMTilesHeader :=
  {| minZoom := 10; maxZoom := maxZ;
     minLon := Some (-123.169)%Q; minLat := Some 48.141%Q;
     maxLon := Some (-123.167)%Q; maxLat := Some 48.142%Q;
     centerZoom := 15; centerLon := None; centerLat := None;
     tileType := type |}.


(** The request passes every check that precedes validation. *)
Definition reaches_validation (st : State) (req : Request)
  (name location : string) (file : File) : Prop :=
  session req = true
  /\ present (form_name req) = Some name
  /\ present (form_location req) = Some location
  /\ form_pmtilesFile req = Some file
  /\ orchardId_of name <> EmptyString
  /\ orchardExists (orchards_table st) (orchardId_of name) = false
  /\ endsWith (toLowerCase (file_name file)) ".pmtiles" = true
  /\ (inject_Z (size file) / 1048576 <= 2048)%Q.

(** An upload whose archive declares tile type 7. *)
Definition type_7_env : Env :=
  {| cwd := "/app"; now := 1700000000000;
     getHeader := fun _ => Resolved (Some (orchard_header 7 20)) |}.

Definition type_7_request : Request :=
  {| session := true;
     form_name := Some "Hill Orchard";
     form_location := Some "Oregon, USA";
     form_pmtilesFile :=
       Some {| file_name := "orthomap.pmtiles"; file_data := [x50; x4d; x54] |} |}.

Definition some_state : State :=
  {| orchards_table :=
       [ {| id := "washington"; name := "Washington Orchard";
            location := "Washington State, USA";
            center_lat := 48.113935; center_lng := (-123.264154) |} ];
     files := {[ "/app/lib/orchards.ts" := [] ]};
     registry := Some [] |}.

End Upload.

(** ** The client-side archive check of [lib/pmtiles-utils.ts] *)

Module PmtilesUtils.
Import Js.

#[local] Unset Elimination Schemes.

(** The value [JSON.parse] yields for the metadata of an archive.  An object
    holds each key once. *)
Inductive Json : Type :=
  | JNull
  | JBool (b : bool)
  | JNumber (q : Q)
  | JString (s : string)
  | JArray (items : list Json)
  | JObject (fields : list (string * Json)).

#[local] Set Elimination Schemes.

(** [v?.key] for a key that [Object.prototype] does not hold: [None] is
    [undefined]. *)
Definition get (v : Json) (key : string) : option Json :=
  match v with
  | JObject fields => snd <$> List.find (fun kv => bool_decide (fst kv = key)) fields
  | _ => None
  end.

Definition truthy (v : option Json) : bool :=
  match v with
  | None | Some JNull | Some (JBool false) | Some (JString EmptyString) => false
  | Some (JNumber q) => negb (Qeq_bool q 0)
  | Some _ => true
  end.

(** [vector_layers.map((l) => l.id)]: only an array has [map], and reading
    [id] of [null] throws. *)
Definition layer_ids (vector_layers : Json) : Settled (list (option Json)) :=
  match vector_layers with
  | JArray items =>
      if existsb (fun l => match l with JNull => true | _ => false end) items
      then Rejected "Cannot read properties of null (reading 'id')"
      else Resolved (List.map (fun l => get l "id") items)
  | _ => Rejected "metadata.vector_layers.map is not a function"
  end.

Record Result : Type := mkResult {
  valid : bool;
  error : option string;
  metadata : option Json
}.

Definition failure (message : string) : Result :=
  {| valid := false;
     error := Some (if bool_decide (message = EmptyString)
                    then "Failed to load PMTiles file" else message);
     metadata := None |}.

(** [validatePMTiles], on the outcomes of [getHeader()] and
    [getMetadata()] for the url.  What it logs is left out. *)
Definition validatePMTiles (header : Settled unit) (got : Settled Json) : Result :=
  match header with
  | Rejected message => failure message
  | Resolved _ =>
      match got with
      | Rejected message => failure message
      | Resolved metadata =>
          let thrown :=
            if truthy (get metadata "vector_layers")
            then match layer_ids (default JNull (get metadata "vector_layers")) with
                 | Rejected message => Some message
                 | Resolved _ => None
                 end
            else None in
          match thrown with
          | Some message => failure message
          | None => {| valid := true; error := None; metadata := Some metadata |}
          end
      end
  end.

(** A result carries metadata when the field holds a value other than
    [null]. *)
Definition populated (r : Result) : bool :=
  match metadata r with
  | None | Some JNull => false
  | Some _ => true
  end.

End PmtilesUtils.

(** ** Tree identifiers and the duplicate check of [lib/db/trees.ts] *)

Module Trees.
Import Js.

(** A row of the [trees] table; the columns the functions below do not
    look at are gathered in [other], the serial [id] and the time stamps
    are left out. *)
Record Tree : Type := mkTree {
  tree_id : string;
  orchard_id : string;
  row_id : option string;
  position : option Z;
  lat : option Q;
  lng : option Q;
  other : list (string * string)
}.

Record TreeInsertData : Type := mkTreeInsertData {
  d_orchard_id : string;
  d_row_id : string;
  d_position : option Z;
  d_lat : option Q;
  d_lng : option Q;
  d_otherFields : list (string * string)
}.

(** The database: the ids of the [orchards] table, which [trees.orchard_id]
    references, and the [trees] table, whose [tree_id] is unique. *)
Record Db : Type := mkDb {
  orchards : list string;
  trees : list Tree
}.

Definition generateTreeId (orchardId rowId : string) (position : Z) : string :=
  let paddedRow := padStart0 2 rowId in
  let paddedPosition := padStart0 3 (pretty position) in
  orchardId ++ "-R" ++ paddedRow ++ "-P" ++ paddedPosition.

(** [WHERE orchard_id = ... AND row_id = ... AND position = ...]. *)
Definition at_row_position (o r : string) (p : Z) (t : Tree) : bool :=
  bool_decide (orchard_id t = o) && bool_decide (row_id t = Some r)
  && bool_decide (position t = Some p).

Definition checkDuplicateRowPosition (db : Db) (o r : string) (p : Z) : bool :=
  existsb (at_row_position o r p) (trees db).

Definition unique_violation : string :=
  "duplicate key value violates unique constraint " ++ dq ++ "trees_tree_id_key" ++ dq.

Definition foreign_key_violation : string :=
  "insert or update on table " ++ dq ++ "trees" ++ dq
    ++ " violates foreign key constraint " ++ dq ++ "trees_orchard_id_fkey" ++ dq.

(** [INSERT INTO trees ... RETURNING *] under the constraints of the schema. *)
Definition insert_row (db : Db) (t : Tree) : Settled (Tree * Db) :=
  if existsb (fun t' => bool_decide (tree_id t' = tree_id t)) (trees db)
  then Rejected unique_violation
  else if negb (bool_decide (orchard_id t ∈ orchards db))
  then Rejected foreign_key_violation
  else Resolved (t, {| orchards := orchards db; trees := (trees db ++ [t])%list |}).

Definition insertTree (db : Db) (treeData : TreeInsertData) : Settled (Tree * Db) :=
  let wrap (message : string) : Settled (Tree * Db) :=
    Rejected ("Failed to insert tree: " ++ message) in
  match d_position treeData with
  | Some position =>
      if bool_decide (d_orchard_id treeData = EmptyString)
         || bool_decide (d_row_id treeData = EmptyString)
      then wrap "Missing required fields: orchard_id, row_id, and position are required"
      else if checkDuplicateRowPosition db (d_orchard_id treeData) (d_row_id treeData) position
      then wrap ("Tree already exists at orchard " ++ dq ++ d_orchard_id treeData ++ dq
                 ++ ", row " ++ dq ++ d_row_id treeData ++ dq
                 ++ ", position " ++ pretty position)
      else
        let tree_id := generateTreeId (d_orchard_id treeData) (d_row_id treeData) position in
        match insert_row db
                {| tree_id := tree_id;
                   orchard_id := d_orchard_id treeData;
                   row_id := Some (d_row_id treeData);
                   position := Some position;
                   lat := d_lat treeData;
                   lng := d_lng treeData;
                   other := d_otherFields treeData |}
        with
        | Rejected message => wrap message
        | Resolved r => Resolved r
        end
  | None => wrap "Missing required fields: orchard_id, row_id, and position are required"
  end.

(** *** Sample data *)

(** [n] zeros. *)
Definition zeros (n : nat) : string :=
  String.string_of_list_ascii (repeat "0"%char n).

Definition tree_at (o r : string) (p : Z) : Tree :=
  {| tree_id := generateTreeId o r p; orchard_id := o; row_id := Some r;
     position := Some p; lat := None; lng := None; other := [] |}.

End Trees.

(** ** Sample data for the tile route *)

Module TileSamples.
Import Js TileServer.

(** A deployment whose washington database cannot be read and whose
    manytrees database holds two tiles of zoom 2. *)
Definition jpeg_tile : TileRow :=
  {| zoom_level := 2; tile_column := 1; tile_row := 3;
     tile_data := Some [xff; xd8; xff; xe0] |}.

Definition null_tile : TileRow :=
  {| zoom_level := 2; tile_column := 1; tile_row := 2; tile_data := None |}.

Definition mixed_world : World :=
  {| cwd := "/srv";
     databases :=
       <[ "/srv/public/orchards/washington/tiles/orthomap.mbtiles" :=
            inl "SQLITE_CORRUPT: database disk image is malformed" ]>
       {[ "/srv/public/orchards/manytreesorchard/manytrees.mbtiles" :=
            inr [null_tile; jpeg_tile] ]} |}.

End TileSamples.

(** ** Sample data for validation *)

Module ValidationSamples.
Import Js Upload.

(** A raster-coded header whose southern bound is missing. *)
Definition no_south_header : PMTilesHeader :=
  {| minZoom := 10; maxZoom := 20;
     minLon := Some (-123.169)%Q; minLat := None;
     maxLon := Some (-123.167)%Q; maxLat := Some 48.142%Q;
     centerZoom := 15; centerLon := None; centerLat := None;
     tileType := 1 |}.

End ValidationSamples.

(** ** Sample data for the upload route *)

Module UploadSamples.
Import Js Upload.

(** An upload of a small archive that validation accepts. *)
Definition hill_env : Env :=
  {| cwd := "/app"; now := 1700000000000;
     getHeader := fun _ => Resolved (Some (orchard_header 1 22)) |}.

Definition hill_file : File :=
  {| file_name := "Orthomap.PMTiles"; file_data := [x50; x4d; x54; x69] |}.

Definition hill_request : Request :=
  {| session := true;
     form_name := Some "Hill Orchard #2";
     form_location := Some "Oregon, USA";
     form_pmtilesFile := Some hill_file |}.

Definition anonymous_request : Request :=
  {| session := false;
     form_name := Some "Hill Orchard #2";
     form_location := Some "Oregon, USA";
     form_pmtilesFile := Some hill_file |}.

(** The row the route inserts for an accepted upload. *)
Definition row_of (name location : string) (md : Metadata) : OrchardRow :=
  {| id := orchardId_of name; name := name; location := location;
     center_lat := lat (center md); center_lng := lng (center md) |}.


(** The same upload under a name of sixty letters. *)
Definition sixty_letters : string :=
  String.string_of_list_ascii (repeat "a"%char 60).

Definition long_name_request : Request :=
  {| session := true;
     form_name := Some sixty_letters;
     form_location := Some "Oregon, USA";
     form_pmtilesFile := Some hill_file |}.

(** A deployment whose configuration file has lost its [orchards] object. *)
Definition no_registry_state : State :=
  {| orchards_table := orchards_table some_state;
     files := files some_state;
     registry := None |}.

End UploadSamples.

(** ** [loadPMTilesSafely] of [lib/pmtiles-utils.ts] *)

Module PmtilesLoader.
Import Js PmtilesUtils.

(** [loadPMTilesSafely]: the archive opened for the url ([new PMTiles(url)],
    told by its url), or [null]. *)
Definition loadPMTilesSafely (url : string) (header : Settled unit) (got : Settled Json)
  : option string :=
  let validation := validatePMTiles header got in
  if negb (valid validation) then None else Some url.

(** The layer list of a metadata value can be read: it is missing or falsy,
    or it is an array without [null] entries. *)
Definition layers_readable (v : Json) : Prop :=
  truthy (get v "vector_layers") = false
  \/ exists items, get v "vector_layers" = Some (JArray items)
                   /\ Forall (fun l => l <> JNull) items.

Definition tippecanoe_metadata : Json :=
  JObject [ ("name", JString "orchard");
            ("vector_layers",
             JArray [ JObject [("id", JString "trees")];
                      JObject [("id", JString "rows")] ]) ].

End PmtilesLoader.

(** ** More of [lib/db/trees.ts]: reads, delete, update and bulk update *)

Module TreesDb.
Import Js Trees.

(** [SELECT * FROM trees WHERE orchard_id = ... AND row_id = ... AND
    position = ... LIMIT 1]. *)
Definition getTreeByRowPosition (db : Db) (o r : string) (p : Z) : option Tree :=
  List.find (at_row_position o r p) (trees db).

(** [SELECT * FROM trees WHERE tree_id = ... LIMIT 1]. *)
Definition getTreeById (db : Db) (i : string) : option Tree :=
  List.find (fun t => bool_decide (tree_id t = i)) (trees db).

(** [SELECT COUNT( * ) FROM trees WHERE orchard_id = ...]. *)
Definition getTreesCount (db : Db) (o : string) : Z :=
  Z.of_nat (length (List.filter (fun t => bool_decide (orchard_id t = o)) (trees db))).

(** [deleteTree]: [DELETE FROM trees WHERE tree_id = ...], and whether the
    row count of the statement is positive. *)
Definition deleteTree (db : Db) (i : string) : bool * Db :=
  let kept := List.filter (fun t => negb (bool_decide (tree_id t = i))) (trees db) in
  let rowCount := (Z.of_nat (length (trees db)) - Z.of_nat (length kept))%Z in
  (0 <? rowCount, {| orchards := orchards db; trees := kept |}).

Section Updates.

(** The values of the fields of an update, and what the database does with
    [UPDATE trees SET ... WHERE tree_id = ... RETURNING *] for the fields
    that are set: the row returned and the tables afterwards, or nothing
    when no row matches or the statement fails. *)
Variable Value : Type.
Variable sql_update : Db -> string -> list (string * Value) -> option (Tree * Db).

(** The entries of an object whose value is not [undefined]. *)
Definition defined (updates : list (string * option Value)) : list (string * Value) :=
  omap (fun kv => match snd kv with
                  | Some v => Some (fst kv, v)
                  | None => None
                  end) updates.

(** [updateTree]: [null] when nothing is set, when no row matches and when
    the statement fails. *)
Definition updateTree (db : Db) (tree_id : string) (updates : list (string * option Value))
  : option Tree * Db :=
  let updateData := defined updates in
  match updateData with
  | [] => (None, db)
  | _ =>
      match sql_update db tree_id updateData with
      | Some (tree, db') => (Some tree, db')
      | None => (None, db)
      end
  end.

(** An element of [updates]: [row_id], [position] and the other fields. *)
Record Update : Type := mkUpdate {
  u_row_id : string;
  u_position : Z;
  u_fields : list (string * option Value)
}.

Record BulkError : Type := mkBulkError {
  e_row_id : string;
  e_position : Z;
  e_error : string
}.

Record BulkResult : Type := mkBulkResult {
  updated : Z;
  errors : list BulkError
}.

(** [bulkUpdateTrees]: the updates are applied one after the other, each
    against the tables the previous ones left. *)
Fixpoint bulkUpdateTrees (db : Db) (orchard_id : string) (updates : list Update)
  : BulkResult * Db :=
  match updates with
  | [] => ({| updated := 0; errors := [] |}, db)
  | update :: rest =>
      match getTreeByRowPosition db orchard_id (u_row_id update) (u_position update) with
      | None =>
          let '(result, db') := bulkUpdateTrees db orchard_id rest in
          ({| updated := updated result;
              errors :=
                {| e_row_id := u_row_id update;
                   e_position := u_position update;
                   e_error := "Tree not found at row " ++ u_row_id update
                              ++ ", position " ++ pretty (u_position update) |}
                :: errors result |}, db')
      | Some tree =>
          match updateTree db (tree_id tree) (u_fields update) with
          | (Some _, db1) =>
              let '(result, db') := bulkUpdateTrees db1 orchard_id rest in
              ({| updated := 1 + updated result; errors := errors result |}, db')
          | (None, db1) =>
              let '(result, db') := bulkUpdateTrees db1 orchard_id rest in
              ({| updated := updated result;
                  errors :=
                    {| e_row_id := u_row_id update;
                       e_position := u_position update;
                       e_error := "Update failed" |}
                    :: errors result |}, db')
          end
      end
  end.

(** *** The route [POST /api/trees/bulk-update] *)

(** [new Date(v)] for a field value, and whether a value is truthy. *)
Variable toDate : Value -> Value.
Variable truthyValue : Value -> bool.

(** An element of the [updates] array of the body, whose [row_id] and
    [position] may be missing. *)
Record RawUpdate : Type := mkRawUpdate {
  raw_row_id : option string;
  raw_position : option Z;
  raw_fields : list (string * option Value)
}.

(** The body: [orchard_id], and [updates] when it is an array. *)
Record BulkBody : Type := mkBulkBody {
  body_orchard_id : option string;
  body_updates : option (list RawUpdate)
}.

Inductive BulkResponse : Type :=
  | BulkFailure (status : Z) (error : string) (details : option string)
  | BulkAnswer (status : Z) (success : bool) (message : string)
      (updated total : Z) (errors : option (list BulkError)).

(** The index of the first update without [row_id] or [position]. *)
Fixpoint first_malformed (updates : list RawUpdate) (i : Z) : option Z :=
  match updates with
  | [] => None
  | update :: rest =>
      match Upload.present (raw_row_id update), raw_position update with
      | Some _, Some _ => first_malformed rest (i + 1)
      | _, _ => Some i
      end
  end.

Definition is_date_field (key : string) : bool :=
  bool_decide (key = "planted_date") || bool_decide (key = "last_pruned")
  || bool_decide (key = "last_harvest").

(** The dates of an update turned into [Date] objects. *)
Definition process_fields (fields : list (string * option Value))
  : list (string * option Value) :=
  List.map (fun kv =>
              match snd kv with
              | Some v =>
                  if is_date_field (fst kv) && truthyValue v
                  then (fst kv, Some (toDate v))
                  else kv
              | None => kv
              end) fields.

Definition process (update : RawUpdate) : Update :=
  {| u_row_id := default EmptyString (raw_row_id update);
     u_position := default 0 (raw_position update);
     u_fields := process_fields (raw_fields update) |}.

Definition bulk_POST (session : bool) (db : Db) (body : BulkBody) : BulkResponse * Db :=
  if negb session then (BulkFailure 401 "Unauthorized. Please sign in." None, db)
  else
    match Upload.present (body_orchard_id body) with
    | None => (BulkFailure 400 "Missing required field" (Some "orchard_id is required"), db)
    | Some orchard_id =>
        match body_updates body with
        | None | Some [] =>
            (BulkFailure 400 "Invalid updates" (Some "updates must be a non-empty array"), db)
        | Some updates =>
            match first_malformed updates 0 with
            | Some i =>
                (BulkFailure 400 "Invalid update format"
                   (Some ("Update at index " ++ pretty i
                          ++ " is missing row_id or position")),
                 db)
            | None =>
                let '(result, db') :=
                  bulkUpdateTrees db orchard_id (List.map process updates) in
                let total := Z.of_nat (length updates) in
                let hasErrors := (0 <? Z.of_nat (length (errors result))) in
                let allFailed := (updated result =? 0) && hasErrors in
                let partialSuccess := (0 <? updated result) && hasErrors in
                if allFailed
                then (BulkAnswer 400 false "All updates failed" (updated result) total
                        (Some (errors result)), db')
                else
                  (BulkAnswer (if partialSuccess then 207 else 200) true
                     (if partialSuccess
                      then "Updated " ++ pretty (updated result) ++ " trees with "
                           ++ pretty (Z.of_nat (length (errors result))) ++ " errors"
                      else "Successfully updated " ++ pretty (updated result) ++ " trees")
                     (updated result) total
                     (if hasErrors then Some (errors result) else None), db')
            end
        end
    end.

End Updates.

(** A database engine for the samples: an update sets the [other] columns
    of the tree with the given id, and fails for a column named [id]. *)
Definition sample_update (db : Db) (i : string) (fields : list (string * string))
  : option (Tree * Db) :=
  if existsb (fun kv => bool_decide (fst kv = "id")) fields then None
  else
    match getTreeById db i with
    | None => None
    | Some t =>
        let t' := {| tree_id := tree_id t; orchard_id := orchard_id t;
                     row_id := row_id t; position := position t;
                     lat := lat t; lng := lng t;
                     other := (fields ++ other t)%list |} in
        Some (t', {| orchards := orchards db;
                     trees := List.map (fun u => if bool_decide (tree_id u = i)
                                                 then t' else u) (trees db) |})
    end.

Definition sample_db : Db :=
  {| orchards := ["washington"];
     trees := [ tree_at "washington" "1" 1; tree_at "washington" "1" 2 ] |}.

End TreesDb.

(** ** The route [POST /api/trees] *)

Module TreesRoute.
Import Js Trees.

(** The body of the request.  A position that is present is a number. *)
Record TreeBody : Type := mkTreeBody {
  b_orchard_id : option string;
  b_row_id : option string;
  b_position : option Z;
  b_lat : option Q;
  b_lng : option Q;
  b_other : list (string * string)
}.

Inductive TreeResponse : Type :=
  | TreeFailure (status : Z) (error : string) (details : option string)
  | TreeCreated (tree : Tree).

Section Route.

(** The error the database raises for the values of the optional columns
    (a date that is not one, a number out of range), if any. *)
Variable column_error : TreeBody -> option string.

(** The route; [TreeCreated] is the answer with status 201. *)
Definition POST (session : bool) (db : Db) (body : TreeBody) : TreeResponse * Db :=
  if negb session then (TreeFailure 401 "Unauthorized. Please sign in." None, db)
  else
    match Upload.present (b_orchard_id body), Upload.present (b_row_id body),
          b_position body with
    | Some orchard_id, Some row_id, Some position =>
        if position <? 1
        then (TreeFailure 400 "Invalid position"
                (Some "position must be a positive number"), db)
        else if checkDuplicateRowPosition db orchard_id row_id position
        then (TreeFailure 409 "Duplicate tree location"
                (Some ("A tree already exists at row " ++ row_id ++ ", position "
                       ++ pretty position ++ " in orchard " ++ orchard_id)), db)
        else
          match column_error body with
          | Some message =>
              (TreeFailure 500 "Failed to create tree"
                 (Some ("Failed to insert tree: " ++ message)), db)
          | None =>
              match insertTree db
                      {| d_orchard_id := orchard_id; d_row_id := row_id;
                         d_position := Some position;
                         d_lat := b_lat body; d_lng := b_lng body;
                         d_otherFields := b_other body |}
              with
              | Rejected message =>
                  (TreeFailure 500 "Failed to create tree" (Some message), db)
              | Resolved (tree, db') => (TreeCreated tree, db')
              end
          end
    | _, _, _ =>
        (TreeFailure 400 "Missing required fields"
           (Some "orchard_id, row_id, and position are required"), db)
    end.

End Route.

Definition padded_body : TreeBody :=
  {| b_orchard_id := Some "washington"; b_row_id := Some "01"; b_position := Some 2;
     b_lat := Some 48.14192%Q; b_lng := Some (-123.16743)%Q;
     b_other := [("variety", "Honeycrisp")] |}.

End TreesRoute.

(** ** The CSV line parser of the tree import *)

Module CsvParser.
Import Js.

(** The loop of [parseCSVLine] from a position of the line on, with the
    field read so far and whether the position is inside quotes. *)
Fixpoint parseCSVLine_from (line current : string) (inQuotes : bool) : list string :=
  match line with
  | EmptyString => [current]
  | String char rest =>
      if Ascii.eqb char (ascii_of_N 34)
      then parseCSVLine_from rest current (negb inQuotes)
      else if Ascii.eqb char ","%char && negb inQuotes
      then current :: parseCSVLine_from rest EmptyString false
      else parseCSVLine_from rest (current ++ String char EmptyString) inQuotes
  end.

Definition parseCSVLine (line : string) : list string :=
  parseCSVLine_from line EmptyString false.

(** [cells.join(',')]. *)
Fixpoint join (cells : list string) : string :=
  match cells with
  | [] => EmptyString
  | [cell] => cell
  | cell :: rest => cell ++ "," ++ join rest
  end.

(** A row as [generateTemplateCSV] writes it: every cell between double
    quotes, the cells joined by commas. *)
Definition quote (cell : string) : string := dq ++ cell ++ dq.

Definition write_row (cells : list string) : string := join (List.map quote cells).

(** The string holds the character. *)
Fixpoint has_char (c : ascii) (s : string) : bool :=
  match s with
  | EmptyString => false
  | String x s' => Ascii.eqb x c || has_char c s'
  end.

Definition sample_row : list string :=
  ["1"; "2"; "Gala"; "stressed"; "2020-03-15"; "4"; "2024-01-10"; "2023-10-12"; "32.0";
   "Possible pest damage, see notes"].

End CsvParser.

(** * Properties *)

(** ** The tile route *)

Module TileServerProofs.
Import Js TileServer.

Lemma contentType_magic (tileData : list byte) :
  contentType tileData = magic_type (take 2 tileData).
Proof.
  destruct tileData as [|a [|b rest]]; [reflexivity | destruct a; reflexivity |].
  change (take 2 (a :: b :: rest)) with [a; b].
  unfold contentType, byte_is; cbn [lookup list_lookup].
  destruct a; try reflexivity; destruct b; reflexivity.
Qed.

Lemma path_join_truthy (dir rel : string) :
  falsy (PathString (path_join dir rel)) = false.
Proof.
  unfold falsy, path_join. apply bool_decide_eq_false.
  destruct dir; discriminate.
Qed.

Lemma own_path_truthy (w : World) (orchard p : string) :
  get_property w orchard = PathString p -> falsy (PathString p) = false.
Proof.
  unfold get_property, MBTILES_PATHS. intros H.
  destruct (decide (orchard = "manytrees")) as [->|Hm].
  - rewrite lookup_insert_eq in H. injection H as <-. apply path_join_truthy.
  - rewrite lookup_insert_ne in H by congruence.
    destruct (decide (orchard = "washington")) as [->|Hw].
    + rewrite lookup_insert_eq in H. injection H as <-. apply path_join_truthy.
    + rewrite lookup_insert_ne, lookup_empty in H by congruence.
      destruct (bool_decide _); discriminate.
Qed.

(** The handler, once the archive is one of the table and its database
    opens: the answer is read off the first row that matches the key. *)
Lemma GET_own (w : World) (orchard z x y p : string) (rows : list TileRow) :
  get_property w orchard = PathString p ->
  databases w !! p = Some (inr rows) ->
  GET w orchard z x y =
    match db_get rows (parseInt z) (parseInt x) (parseInt y) with
    | Some {| tile_data := Some d |} => tile_response d (contentType d)
    | _ => text_response (not_found_text (parseInt z) (parseInt x) (parseInt y)) 404
    end.
Proof.
  intros Hp Hdb. unfold GET. rewrite Hp, (own_path_truthy _ _ _ Hp).
  cbn [query]. rewrite Hdb. unfold tmsY_of.
  destruct (db_get rows _ _ _) as [[? ? ? [d|]]|]; reflexivity.
Qed.

(** An identifier that is neither in the table nor a member of
    [Object.prototype] is answered 404. *)
Lemma unknown_orchard_404 (w : World) (orchard z x y : string) :
  MBTILES_PATHS w !! orchard = None ->
  orchard ∉ Object_prototype ->
  GET w orchard z x y = text_response ("Orchard '" ++ orchard ++ "' not found") 404.
Proof.
  intros Hnone Hproto. unfold GET, get_property. rewrite Hnone.
  rewrite bool_decide_eq_false_2 by exact Hproto. reflexivity.
Qed.

(** A key with no stored tile is answered 404, with the coordinate in the
    text. *)
Lemma tile_miss_404 (w : World) (orchard z x y p : string) (rows : list TileRow) :
  get_property w orchard = PathString p ->
  databases w !! p = Some (inr rows) ->
  db_get rows (parseInt z) (parseInt x) (parseInt y) = None ->
  GET w orchard z x y
  = text_response (not_found_text (parseInt z) (parseInt x) (parseInt y)) 404.
Proof.
  intros Hp Hdb Hmiss. rewrite (GET_own _ _ _ _ _ _ _ Hp Hdb), Hmiss. reflexivity.
Qed.

Lemma MAX_SAFE_INTEGER_eq : MAX_SAFE_INTEGER = 9007199254740991.
Proof. reflexivity. Qed.

(** Up to [MAX_SAFE_INTEGER] the digits read are the number itself. *)
Lemma toNumber_safe (sign n : Z) :
  0 <= n <= MAX_SAFE_INTEGER -> toNumber sign n = Int (sign * n).
Proof.
  rewrite MAX_SAFE_INTEGER_eq. intros Hn. unfold toNumber, nearestDouble.
  change (2 ^ 53) with 9007199254740992.
  replace (n <? 9007199254740992) with true; [reflexivity|].
  symmetry. apply Z.ltb_lt. lia.
Qed.

(** Up to [MAX_SAFE_INTEGER] a number is printed in plain decimal. *)
Lemma toString_safe (n : Z) :
  Z.abs n <= MAX_SAFE_INTEGER -> toString (Int n) = pretty n.
Proof.
  intros Hn. cbn [toString].
  replace (Z.abs n <=? MAX_SAFE_INTEGER) with true; [reflexivity|].
  symmetry. apply Z.leb_le. exact Hn.
Qed.

(** Above [MAX_SAFE_INTEGER] the digits are rounded to a double, which is
    printed with the fewest digits that give it back; 310 digits or more
    are infinite; the no-break space is skipped like a space. *)
Example parseInt_beyond_safe_integers :
  parseInt "9007199254740993" = Int 9007199254740992
  /\ toString (parseInt "9007199254740993") = "9007199254740992"
  /\ toString (parseInt "18446744073709551616") = "18446744073709552000"
  /\ toString (parseInt "-1000000000000000000000") = "-1e+21"
  /\ toString (parseInt "1180591620717411303424") = "1.1805916207174113e+21"
  /\ parseInt (String "1" (String.string_of_list_ascii (repeat "0"%char 309)))
     = Infinity false
  /\ parseInt (String (ascii_of_N 160) "7px") = Int 7.
Proof. vm_compute. repeat split. Qed.

(** The text of the 404 answer for coordinates up to [MAX_SAFE_INTEGER]. *)
Lemma not_found_text_safe (zoom column r : Z) :
  Z.abs zoom <= MAX_SAFE_INTEGER -> Z.abs column <= MAX_SAFE_INTEGER ->
  Z.abs r <= MAX_SAFE_INTEGER ->
  not_found_text (Int zoom) (Int column) (Int r)
  = "Tile not found: " ++ pretty zoom ++ "/" ++ pretty column ++ "/" ++ pretty r
      ++ " (TMS: " ++ pretty r ++ ")".
Proof.
  intros Hz Hx Hy. unfold not_found_text.
  rewrite (toString_safe _ Hz), (toString_safe _ Hx), (toString_safe _ Hy).
  reflexivity.
Qed.

Example scenario_tile_miss :
  GET south_west_world "washington" "14" "100" "200"
  = text_response "Tile not found: 14/100/200 (TMS: 200)" 404.
Proof. vm_compute. reflexivity. Qed.

(** C1 (as stated, refuted).  The washington database stores the only tile
    of zoom 1, column 0 under row 1, which is row [N - 1 - 0] of the
    south-west numbering for the [N = 2] rows of that zoom; the request for
    row 0 is looked up under row 0 and answered 404. *)
Lemma south_west_row_not_reconciled :
  db_get [south_west_tile] (Int 1) (Int 0)
    (Int (reconcile_row_spec OriginSouthWest (2 ^ 1) 0)) = Some south_west_tile
  /\ tmsY_of (parseInt "0") <> Int (reconcile_row_spec OriginSouthWest (2 ^ 1) 0)
  /\ GET south_west_world "washington" "1" "0" "0"
     = text_response "Tile not found: 1/0/0 (TMS: 0)" 404.
Proof.
  split; [reflexivity | split].
  - vm_compute. discriminate.
  - vm_compute. reflexivity.
Qed.

(** C1 (amended).  For every archive of the table and every request whose
    zoom, column and row are read as integers up to [MAX_SAFE_INTEGER] in
    magnitude, the row looked up is the requested row itself, the row of
    the north-west numbering, whatever convention the archive was produced
    under: the answer is the first stored tile whose zoom, column and row
    equal the requested ones, and 404 with the requested coordinates in the
    text when there is none. *)
Theorem row_looked_up_as_requested
  (w : World) (orchard z x y p : string) (rows : list TileRow) (zoom column r : Z) :
  get_property w orchard = PathString p ->
  databases w !! p = Some (inr rows) ->
  parseInt z = Int zoom -> parseInt x = Int column -> parseInt y = Int r ->
  Z.abs zoom <= MAX_SAFE_INTEGER -> Z.abs column <= MAX_SAFE_INTEGER ->
  Z.abs r <= MAX_SAFE_INTEGER ->
  GET w orchard z x y =
    match List.find
            (fun row => (zoom_level row =? zoom) && (tile_column row =? column)
                        && (tile_row row =? reconcile_row_spec OriginNorthWest (2 ^ zoom) r))
            rows
    with
    | Some {| tile_data := Some d |} => tile_response d (contentType d)
    | _ => text_response
             ("Tile not found: " ++ pretty zoom ++ "/" ++ pretty column ++ "/" ++ pretty r
                ++ " (TMS: " ++ pretty r ++ ")")
             404
    end.
Proof.
  intros Hp Hdb Hz Hx Hy Bz Bx By.
  rewrite (GET_own _ _ _ _ _ _ _ Hp Hdb), Hz, Hx, Hy.
  rewrite (not_found_text_safe _ _ _ Bz Bx By). reflexivity.
Qed.

Lemma row_looked_up_as_requested_witness :
  GET south_west_world "washington" "1" "0" "1"
  = tile_response [x89; x50; x4e; x47] "image/png".
Proof.
  rewrite (row_looked_up_as_requested south_west_world "washington" "1" "0" "1"
             "/app/public/orchards/washington/tiles/orthomap.mbtiles"
             [south_west_tile] 1 0 1);
    vm_compute; try reflexivity; discriminate.
Defined.

(** C8 (the code at the failing input).  [constructor] is not an archive of
    the table, yet the property read finds the inherited member, the guard
    lets it through, opening the database throws, and the answer is 500. *)
Theorem inherited_name_is_500 (w : World) (z x y : string) :
  MBTILES_PATHS w !! "constructor" = None
  /\ GET w "constructor" z x y = text_response "String expected" 500.
Proof.
  split.
  - unfold MBTILES_PATHS. rewrite !lookup_insert_ne by discriminate. apply lookup_empty.
  - unfold GET, get_property, MBTILES_PATHS.
    rewrite !lookup_insert_ne by discriminate. rewrite lookup_empty. reflexivity.
Qed.

(** Every member of [Object.prototype] passes the guard in the same way. *)
Lemma inherited_names_are_500 (w : World) (orchard z x y : string) :
  orchard ∈ Object_prototype ->
  GET w orchard z x y = text_response "String expected" 500.
Proof.
  intros Hin. unfold GET, get_property, MBTILES_PATHS.
  rewrite bool_decide_eq_true_2 by exact Hin.
  unfold Object_prototype in Hin.
  repeat (apply elem_of_cons in Hin as [->|Hin];
          [rewrite !lookup_insert_ne by discriminate; rewrite lookup_empty; reflexivity|]).
  inversion Hin.
Qed.

(** C9.  A response that carries tile bytes has status 200 and reports the
    content type that the first two bytes of the tile select: 89 50 gives
    image/png, FF D8 image/jpeg, 52 49 image/webp, and anything else
    (shorter tiles included) application/octet-stream. *)
Theorem served_content_type
  (w : World) (orchard z x y : string) (tileData : list byte) :
  body (GET w orchard z x y) = Binary tileData ->
  GET w orchard z x y = tile_response tileData (magic_type (take 2 tileData)).
Proof.
  unfold GET. destruct (falsy _); [discriminate|].
  destruct (query _ _ _ _ _) as [[d|]|]; try discriminate.
  cbn [body]. intros [= ->]. rewrite contentType_magic. reflexivity.
Qed.

Lemma served_content_type_witness :
  GET south_west_world "washington" "1" "0" "1"
  = tile_response [x89; x50; x4e; x47] "image/png".
Proof.
  apply (served_content_type south_west_world "washington" "1" "0" "1"
           [x89; x50; x4e; x47]).
  vm_compute. reflexivity.
Defined.

End TileServerProofs.

(** ** Validation of an uploaded archive *)

Module ValidationProofs.
Import Js Upload.

Lemma includes_unfold (s needle : string) :
  includes s needle =
  startsWith s needle ||
  match s with
  | String _ s' => includes s' needle
  | EmptyString => false
  end.
Proof. destruct s; reflexivity. Qed.

Lemma startsWith_app (needle post : string) :
  startsWith (needle ++ post) needle = true.
Proof.
  induction needle as [|c needle IH]; [destruct post; reflexivity|].
  change (startsWith (String c (needle ++ post)) (String c needle) = true).
  cbn [startsWith]. rewrite Ascii.eqb_refl. exact IH.
Qed.

Lemma includes_app (pre needle post : string) :
  includes (pre ++ needle ++ post) needle = true.
Proof.
  induction pre as [|c pre IH].
  - change (includes (needle ++ post) needle = true).
    rewrite includes_unfold, startsWith_app. reflexivity.
  - change (includes (String c (pre ++ needle ++ post)) needle = true).
    rewrite includes_unfold, IH. apply orb_true_r.
Qed.

Lemma Qgt_bool_true (a b : Q) : Qgt_bool a b = true <-> (b < a)%Q.
Proof.
  unfold Qgt_bool. rewrite negb_true_iff, <- not_true_iff_false, Qle_bool_iff.
  split; [apply Qnot_le_lt | apply Qlt_not_le].
Qed.

Lemma Qgt_bool_false (a b : Q) : Qgt_bool a b = false <-> (a <= b)%Q.
Proof.
  unfold Qgt_bool. rewrite negb_false_iff. apply Qle_bool_iff.
Qed.

Lemma Math_min_gt (a b : Q) : (b < a)%Q -> Math_min a b = b.
Proof.
  intros H. unfold Math_min. apply Qgt_bool_true in H. unfold Qgt_bool in H.
  apply negb_true_iff in H. rewrite H. reflexivity.
Qed.

Lemma Math_min_le (a b : Q) : (a <= b)%Q -> Math_min a b = a.
Proof.
  intros H. unfold Math_min. apply Qle_bool_iff in H. rewrite H. reflexivity.
Qed.

(** The tile-type rule accepts the codes 1 and 2 and no other. *)
Lemma check_tile_type_cases (h : PMTilesHeader) :
  (tileType h = 1 /\ check_tile_type h = Some (raster, []))
  \/ (tileType h = 2 /\ check_tile_type h = Some (vector, [vector_warning]))
  \/ (tileType h <> 1 /\ tileType h <> 2 /\ check_tile_type h = None).
Proof.
  unfold check_tile_type.
  destruct (Z.eqb_spec (tileType h) 1) as [->|H1]; [left; split; reflexivity|].
  destruct (Z.eqb_spec (tileType h) 2) as [->|H2]; [right; left; split; reflexivity|].
  right; right. repeat split; assumption.
Qed.

(** A refused tile type is a failure whose message names the code. *)
Lemma refused_type_named (h : PMTilesHeader) :
  check_tile_type h = None ->
  validatePMTilesFile (Resolved (Some h)) = invalid (unsupported_error h)
  /\ includes (unsupported_error h) (pretty (tileType h)) = true.
Proof.
  intros H. split.
  - unfold validatePMTilesFile. rewrite H. reflexivity.
  - apply (includes_app "Unsupported tile type: ").
Qed.

(** The shape of the result for a header that passes the first two rules. *)
Lemma validate_accepted (h : PMTilesHeader) (kind : TileKind) (ws : list string)
  (a b c d : Q) :
  check_tile_type h = Some (kind, ws) ->
  minLon h = Some a -> minLat h = Some b -> maxLon h = Some c -> maxLat h = Some d ->
  validatePMTilesFile (Resolved (Some h)) =
  {| valid := true;
     error := None;
     warnings :=
       nonempty
         ((ws ++ (if is_world a c b d then [world_warning] else []))
          ++ (if Qgt_bool (inject_Z (maxZoom h)) 21.5 then [zoom_warning h] else []))%list;
     metadata := Some
       {| bounds := {| minLng := a; b_minLat := b; maxLng := c; b_maxLat := d |};
          center := {| lng := default ((a + c) / 2)%Q (centerLon h);
                       lat := default ((b + d) / 2)%Q (centerLat h) |};
          md_minZoom := minZoom h;
          md_maxZoom := Math_min (inject_Z (maxZoom h)) 21.5;
          md_tileType := kind |} |}.
Proof.
  intros Ht Ha Hb Hc Hd. unfold validatePMTilesFile. rewrite Ht, Ha, Hb, Hc, Hd.
  destruct (is_world a c b d), (Qgt_bool _ _); rewrite ?app_nil_r; reflexivity.
Qed.

Lemma warnings_of_nonempty (ws : list string) (v : bool) (e : option string)
  (m : option Metadata) :
  warnings_of {| valid := v; error := e; warnings := nonempty ws; metadata := m |} = ws.
Proof. destruct ws; reflexivity. Qed.

Lemma passes_inv (h : PMTilesHeader) :
  passes_earlier_rules h = true ->
  exists kind ws a b c d,
    check_tile_type h = Some (kind, ws) /\
    (ws = [] \/ ws = [vector_warning]) /\
    minLon h = Some a /\ minLat h = Some b /\ maxLon h = Some c /\ maxLat h = Some d.
Proof.
  unfold passes_earlier_rules. intros H.
  destruct (check_tile_type_cases h) as [[_ Ht]|[[_ Ht]|[_ [_ Ht]]]];
    rewrite Ht in H; try discriminate;
    destruct (minLon h) as [a|], (minLat h) as [b|], (maxLon h) as [c|],
             (maxLat h) as [d|]; try discriminate;
    eexists _, _, a, b, c, d; (split; [exact Ht|]); (split; [auto|]); auto.
Qed.

(** C2 (the code at the failing input).  Code 3 is JPEG imagery in the
    tile-type table of the type-check script, and validation refuses an
    archive of that type, naming the code. *)
Theorem jpeg_archive_refused :
  TypeCheckScript.types 3 = Some "JPEG"
  /\ TypeCheckScript.verdict 3 = TypeCheckScript.RasterData
  /\ validatePMTilesFile (Resolved (Some (orchard_header 3 20)))
     = invalid "Unsupported tile type: 3. Expected raster (1) or vector (2).".
Proof. repeat split. Qed.

(** Against the table of the script, validation accepts the vector code 1
    as raster with no warning, labels the PNG code 2 vector, and refuses
    the JPEG, WEBP and AVIF codes. *)
Lemma tile_type_rule_against_table (h : PMTilesHeader) :
  (TypeCheckScript.verdict (tileType h) = TypeCheckScript.VectorData ->
   check_tile_type h = Some (raster, []))
  /\ (TypeCheckScript.verdict (tileType h) = TypeCheckScript.RasterData ->
      check_tile_type h = (if tileType h =? 2 then Some (vector, [vector_warning]) else None)).
Proof.
  unfold TypeCheckScript.verdict, check_tile_type.
  destruct (Z.eqb_spec (tileType h) 1) as [->|H1]; [split; [reflexivity|discriminate]|].
  split; [destruct (_ && _); discriminate|reflexivity].
Qed.

(** C3 (as stated, refuted).  A header that declares maxZoom 25 and the
    unsupported tile type 7 is refused: no metadata, no clamp. *)
Lemma clamp_needs_accepted_header :
  (21.5 < inject_Z (maxZoom (orchard_header 7 25)))%Q
  /\ valid (validatePMTilesFile (Resolved (Some (orchard_header 7 25)))) = false
  /\ metadata (validatePMTilesFile (Resolved (Some (orchard_header 7 25)))) = None
  /\ warnings (validatePMTilesFile (Resolved (Some (orchard_header 7 25)))) = None.
Proof. repeat split. Qed.

(** C3 (amended).  For every header that passes the tile-type and
    bounds-presence rules, validation succeeds; when the declared maxZoom
    exceeds 21.5 the metadata carries 21.5 and the warnings hold one that
    mentions both the declared value and 21.5; when it is at most 21.5 the
    metadata carries it unchanged and no warning speaks of a cap. *)
Theorem max_zoom_clamped (h : PMTilesHeader) :
  passes_earlier_rules h = true ->
  let r := validatePMTilesFile (Resolved (Some h)) in
  valid r = true
  /\ ((21.5 < inject_Z (maxZoom h))%Q ->
      md_maxZoom <$> metadata r = Some 21.5%Q
      /\ zoom_warning h ∈ warnings_of r
      /\ includes (zoom_warning h) (pretty (maxZoom h)) = true
      /\ includes (zoom_warning h) "21.5" = true)
  /\ ((inject_Z (maxZoom h) <= 21.5)%Q ->
      md_maxZoom <$> metadata r = Some (inject_Z (maxZoom h))
      /\ forall warning, warning ∈ warnings_of r ->
                         includes warning "Max zoom capped" = false).
Proof.
  intros Hpass r.
  destruct (passes_inv h Hpass) as (kind & ws & a & b & c & d & Ht & Hws & Ha & Hb & Hc & Hd).
  subst r. rewrite (validate_accepted h kind ws a b c d Ht Ha Hb Hc Hd).
  rewrite warnings_of_nonempty. cbn [valid metadata fmap option_fmap option_map md_maxZoom].
  split; [reflexivity|]. split.
  - intros Hgt. rewrite (Math_min_gt _ _ Hgt).
    apply Qgt_bool_true in Hgt. rewrite Hgt.
    split; [reflexivity|]. split; [apply elem_of_app; right; constructor|]. split.
    + apply (includes_app "Max zoom capped at 21.5 (was ").
    + apply (includes_app "Max zoom capped at " "21.5").
  - intros Hle. rewrite (Math_min_le _ _ Hle).
    apply Qgt_bool_false in Hle. rewrite Hle, app_nil_r.
    split; [reflexivity|]. intros warning Hin.
    apply elem_of_app in Hin as [Hin|Hin].
    + destruct Hws as [Hws|Hws]; subst ws; [set_solver|].
      apply list_elem_of_singleton in Hin as ->. reflexivity.
    + destruct (is_world a c b d); [|set_solver].
      apply list_elem_of_singleton in Hin as ->. reflexivity.
Qed.

Lemma max_zoom_clamped_witness :
  md_maxZoom <$> metadata (validatePMTilesFile (Resolved (Some (orchard_header 1 25))))
  = Some 21.5%Q
  /\ includes (zoom_warning (orchard_header 1 25)) "25" = true.
Proof.
  destruct (max_zoom_clamped (orchard_header 1 25) eq_refl) as (_ & Hgt & _).
  destruct Hgt as (Hmax & _ & Hwas & _); [reflexivity|].
  split; [exact Hmax | exact Hwas].
Defined.

(** C4 (the code at the failing input).  Code 2 is PNG imagery in the table
    of the script; for a PNG archive with all four bounds, bounds that are
    not the world and maxZoom 20, validation succeeds but labels the
    archive vector and returns a warning. *)
Theorem png_archive_warned :
  TypeCheckScript.types 2 = Some "PNG"
  /\ TypeCheckScript.verdict 2 = TypeCheckScript.RasterData
  /\ valid (validatePMTilesFile (Resolved (Some (orchard_header 2 20)))) = true
  /\ warnings (validatePMTilesFile (Resolved (Some (orchard_header 2 20))))
     = Some [vector_warning]
  /\ md_tileType <$> metadata (validatePMTilesFile (Resolved (Some (orchard_header 2 20))))
     = Some vector.
Proof. repeat split. Qed.

(** For a header of tile type 1 with all four bounds, bounds that are not
    the world and maxZoom at most 21.5, validation succeeds with no
    warnings, and the center defaults to the midpoint of the bounds, which
    lies between them. *)
Lemma type_1_center_midpoint (h : PMTilesHeader) (a b c d : Q) :
  tileType h = 1 ->
  minLon h = Some a -> minLat h = Some b -> maxLon h = Some c -> maxLat h = Some d ->
  is_world a c b d = false ->
  (inject_Z (maxZoom h) <= 21.5)%Q ->
  centerLon h = None -> centerLat h = None ->
  let r := validatePMTilesFile (Resolved (Some h)) in
  valid r = true /\ warnings r = None
  /\ center <$> metadata r = Some {| lng := ((a + c) / 2)%Q; lat := ((b + d) / 2)%Q |}
  /\ ((a <= c)%Q -> (a <= (a + c) / 2 <= c)%Q)
  /\ ((b <= d)%Q -> (b <= (b + d) / 2 <= d)%Q).
Proof.
  intros Ht Ha Hb Hc Hd Hw Hz Hcl Hct r. subst r.
  assert (Hk : check_tile_type h = Some (raster, [])).
  { unfold check_tile_type. rewrite Ht. reflexivity. }
  rewrite (validate_accepted h raster [] a b c d Hk Ha Hb Hc Hd).
  apply Qgt_bool_false in Hz. rewrite Hw, Hz, Hcl, Hct. cbn.
  repeat split; try reflexivity.
  - apply Qle_shift_div_l; [reflexivity | lra].
  - apply Qle_shift_div_r; [reflexivity | lra].
  - apply Qle_shift_div_l; [reflexivity | lra].
  - apply Qle_shift_div_r; [reflexivity | lra].
Qed.



End ValidationProofs.

(** ** Metadata and validity *)

Module MetadataProofs.
Import Js.

Lemma upload_metadata_iff_valid (got : Settled (option Upload.PMTilesHeader)) :
  Upload.valid (Upload.validatePMTilesFile got) = true
  <-> is_Some (Upload.metadata (Upload.validatePMTilesFile got)).
Proof.
  assert (Hno : forall text,
             Upload.valid (Upload.invalid text) = true
             <-> is_Some (Upload.metadata (Upload.invalid text))).
  { intros text. split; [discriminate | intros [? [=]]]. }
  unfold Upload.validatePMTilesFile.
  destruct got as [[h|]|text]; try apply Hno.
  destruct (Upload.check_tile_type h) as [[kind ws]|]; try apply Hno.
  destruct (Upload.minLon h), (Upload.minLat h), (Upload.maxLon h), (Upload.maxLat h);
    try apply Hno.
  cbn. split; [eauto | reflexivity].
Qed.

Lemma failure_no_metadata (text : string) :
  PmtilesUtils.valid (PmtilesUtils.failure text) = false
  /\ PmtilesUtils.metadata (PmtilesUtils.failure text) = None.
Proof. split; reflexivity. Qed.

(** The client-side check hands on what [getMetadata] resolved to. *)
Lemma client_cases (header : Settled unit) (got : Settled PmtilesUtils.Json) :
  (exists text, PmtilesUtils.validatePMTiles header got = PmtilesUtils.failure text)
  \/ (exists v, got = Resolved v /\
                PmtilesUtils.validatePMTiles header got
                = {| PmtilesUtils.valid := true; PmtilesUtils.error := None;
                     PmtilesUtils.metadata := Some v |}).
Proof.
  unfold PmtilesUtils.validatePMTiles.
  destruct header as [[]|text]; [|left; eauto].
  destruct got as [v|text]; [|left; eauto].
  destruct (PmtilesUtils.truthy _); [|right; eauto].
  destruct (PmtilesUtils.layer_ids _); [right|left]; eauto.
Qed.

(** C6 (as stated, refuted).  For an archive whose metadata decodes to
    [null], the client-side check answers valid with a metadata field that
    holds nothing. *)
Lemma null_metadata_is_valid :
  PmtilesUtils.valid (PmtilesUtils.validatePMTiles (Resolved tt) (Resolved PmtilesUtils.JNull))
  = true
  /\ PmtilesUtils.populated
       (PmtilesUtils.validatePMTiles (Resolved tt) (Resolved PmtilesUtils.JNull))
     = false.
Proof. split; reflexivity. Qed.

(** C6 (amended).  The result of [validatePMTilesFile] carries the
    normalized metadata exactly when it is valid, for every outcome of
    reading the header.  The result of [validatePMTiles] carries no metadata
    when it is not valid, and when it is valid it carries the value the
    archive's metadata decoded to, which is populated unless that value is
    [null]. *)
Theorem metadata_follows_validity :
  (forall got : Settled (option Upload.PMTilesHeader),
      Upload.valid (Upload.validatePMTilesFile got) = true
      <-> is_Some (Upload.metadata (Upload.validatePMTilesFile got)))
  /\ (forall (header : Settled unit) (got : Settled PmtilesUtils.Json),
         let r := PmtilesUtils.validatePMTiles header got in
         (PmtilesUtils.valid r = false -> PmtilesUtils.metadata r = None)
         /\ (PmtilesUtils.valid r = true ->
             exists v, got = Resolved v /\ PmtilesUtils.metadata r = Some v)
         /\ (PmtilesUtils.populated r = true
             <-> PmtilesUtils.valid r = true /\ got <> Resolved PmtilesUtils.JNull)).
Proof.
  split; [exact upload_metadata_iff_valid|].
  intros header got r. subst r.
  destruct (client_cases header got) as [[text ->]|[v [-> ->]]].
  - split; [reflexivity|]. split; [discriminate|].
    split; [discriminate | intros [[=] _]].
  - split; [discriminate|]. split; [intros _; eauto|].
    unfold PmtilesUtils.populated; cbn. split.
    + intros Hp. split; [reflexivity|]. intros [= ->]. discriminate.
    + intros [_ Hv]. destruct v; try reflexivity. contradiction.
Qed.

Lemma metadata_follows_validity_witness :
  PmtilesUtils.populated
    (PmtilesUtils.validatePMTiles (Resolved tt)
       (Resolved (PmtilesUtils.JObject [("name", PmtilesUtils.JString "trees")])))
  = true.
Proof.
  destruct metadata_follows_validity as [_ Hclient].
  apply Hclient. split; [reflexivity | discriminate].
Defined.

End MetadataProofs.

(** ** The upload route *)

Module IngestionProofs.
Import Js Upload.

(** Whatever check stops the request, an archive that validation refuses
    leaves the [orchards] table and the registry as they were. *)
Lemma refused_archive_never_persisted (env : Env) (st : State) (req : Request) :
  (forall file, form_pmtilesFile req = Some file ->
                valid (validatePMTilesFile (getHeader env (file_data file))) = false) ->
  orchards_table (snd (POST env st req)) = orchards_table st
  /\ registry (snd (POST env st req)) = registry st.
Proof.
  intros Hrefused. unfold POST.
  destruct (session req); [|split; reflexivity]. cbn [negb].
  destruct (present (form_name req)) as [name|]; [|split; reflexivity].
  destruct (present (form_location req)) as [location|]; [|split; reflexivity].
  destruct (form_pmtilesFile req) as [file|]; [|split; reflexivity].
  specialize (Hrefused file eq_refl).
  destruct (bool_decide _); [split; reflexivity|].
  destruct (orchardExists _ _); [split; reflexivity|].
  destruct (negb _); [split; reflexivity|].
  destruct (Qgt_bool _ 2048); [split; reflexivity|].
  unfold ingest. rewrite Hrefused. split; reflexivity.
Qed.

(** A refused archive has a message, and the message is not empty. *)
Lemma invalid_has_message (got : Settled (option PMTilesHeader)) :
  valid (validatePMTilesFile got) = false ->
  exists c text, error (validatePMTilesFile got) = Some (String c text).
Proof.
  unfold validatePMTilesFile.
  destruct got as [[h|]|message]; [|intros _; eexists _, _; reflexivity..].
  destruct (check_tile_type h) as [[kind ws]|]; [|intros _; eexists _, _; reflexivity].
  destruct (minLon h), (minLat h), (maxLon h), (maxLat h);
    try (intros _; eexists _, _; reflexivity).
  discriminate.
Qed.

(** C7.  For every upload that reaches validation and whose archive is
    refused, the route answers 400 with the message of the validation, the
    [orchards] table and the configuration registry are as before, and the
    temporary file is gone from the disk, the other files being as before.
    When the archive is refused for its tile type, the message contains the
    code of that type. *)
Theorem refused_archive_persists_nothing
  (env : Env) (st : State) (req : Request) (name location : string) (file : File) :
  reaches_validation st req name location file ->
  valid (validatePMTilesFile (getHeader env (file_data file))) = false ->
  exists text,
    error (validatePMTilesFile (getHeader env (file_data file))) = Some text
    /\ fst (POST env st req) = Failure 400 text NoDetails
    /\ orchards_table (snd (POST env st req)) = orchards_table st
    /\ registry (snd (POST env st req)) = registry st
    /\ files (snd (POST env st req)) !! tempFilePath env = None
    /\ files (snd (POST env st req)) = delete (tempFilePath env) (files st)
    /\ (forall h, getHeader env (file_data file) = Resolved (Some h) ->
                  check_tile_type h = None ->
                  includes text (pretty (tileType h)) = true).
Proof.
  intros (Hs & Hn & Hl & Hf & Hid & Hex & Hext & Hsize) Hinvalid.
  destruct (invalid_has_message _ Hinvalid) as (c & text & Herr).
  exists (String c text). split; [exact Herr|].
  assert (HPOST : POST env st req =
            (Failure 400 (String c text) NoDetails,
             {| orchards_table := orchards_table st;
                files := delete (tempFilePath env) (files st);
                registry := registry st |})).
  { unfold POST. rewrite Hs, Hn, Hl, Hf. cbn [negb].
    rewrite bool_decide_eq_false_2 by exact Hid. rewrite Hex, Hext. cbn [negb].
    apply ValidationProofs.Qgt_bool_false in Hsize. rewrite Hsize.
    unfold ingest. rewrite Hinvalid, Herr. cbn [negb present default].
    unfold unlink_temp. cbn [orchards_table files registry].
    rewrite delete_insert_eq. reflexivity. }
  rewrite HPOST. cbn [fst snd orchards_table files registry].
  repeat split.
  - apply lookup_delete_eq.
  - intros h Hh Hrefused. rewrite Hh in Herr.
    destruct (ValidationProofs.refused_type_named h Hrefused) as [Hv Hinc].
    rewrite Hv in Herr. cbn [error invalid] in Herr.
    apply (inj Some) in Herr. rewrite <- Herr. exact Hinc.
Qed.

Lemma refused_archive_persists_nothing_witness :
  POST type_7_env some_state type_7_request
  = (Failure 400 "Unsupported tile type: 7. Expected raster (1) or vector (2)." NoDetails,
     some_state).
Proof.
  assert (Hreach : reaches_validation some_state type_7_request
                     "Hill Orchard" "Oregon, USA"
                     {| file_name := "orthomap.pmtiles"; file_data := [x50; x4d; x54] |}).
  { repeat split; try reflexivity; vm_compute; discriminate. }
  destruct (refused_archive_persists_nothing type_7_env some_state type_7_request
              _ _ _ Hreach eq_refl)
    as (text & Herr & Hresp & _).
  apply (inj Some) in Herr. subst text.
  rewrite (surjective_pairing (POST type_7_env some_state type_7_request)), Hresp.
  reflexivity.
Defined.

End IngestionProofs.

(** ** Tree identifiers *)

Module TreesProofs.
Import Js Trees.

Lemma append_assoc (a b c : string) : (a ++ b) ++ c = a ++ b ++ c.
Proof.
  induction a as [|x a IH]; [reflexivity|].
  change (String x ((a ++ b) ++ c) = String x (a ++ b ++ c)). rewrite IH. reflexivity.
Qed.

(** The duplicate check is exact equality on orchard, row and position. *)
Lemma checkDuplicateRowPosition_spec (db : Db) (o r : string) (p : Z) :
  checkDuplicateRowPosition db o r p = true
  <-> exists t, t ∈ trees db /\ orchard_id t = o /\ row_id t = Some r
                /\ position t = Some p.
Proof.
  unfold checkDuplicateRowPosition, at_row_position. rewrite existsb_exists.
  split.
  - intros (t & Hin & Ht). exists t.
    rewrite !andb_true_iff, !bool_decide_eq_true in Ht.
    destruct Ht as [[Ho Hr] Hp]. rewrite list_elem_of_In. auto.
  - intros (t & Hin & Ho & Hr & Hp). exists t. split; [by apply list_elem_of_In|].
    rewrite !andb_true_iff, !bool_decide_eq_true. auto.
Qed.

Lemma padded_row_not_found (o : string) (p : Z) :
  checkDuplicateRowPosition {| orchards := [o]; trees := [tree_at o "1" p] |} o "01" p
  = false.
Proof.
  unfold checkDuplicateRowPosition, at_row_position; cbn.
  rewrite (bool_decide_eq_false_2 (Some "1" = Some "01")) by discriminate.
  rewrite andb_false_r. reflexivity.
Qed.

(** C10.  The tree identifier is the orchard id, [-R], the row id behind as
    many zeros as it lacks to two characters, [-P], and the position in
    decimal behind as many zeros as it lacks to three.  So the row ids [1]
    and [01], which differ, give one identifier for the same orchard and
    position, while the duplicate check, which holds exactly when a tree has
    the same orchard, row id and position, does not find the tree of row [1]
    when asked for row [01]. *)
Theorem tree_id_padding_collides (o : string) (p : Z) :
  (forall r,
      generateTreeId o r p
      = o ++ "-R" ++ zeros (2 - String.length r) ++ r
          ++ "-P" ++ zeros (3 - String.length (pretty p)) ++ pretty p)
  /\ "1" <> "01"
  /\ generateTreeId o "1" p = generateTreeId o "01" p
  /\ (forall db r,
         checkDuplicateRowPosition db o r p = true
         <-> exists t, t ∈ trees db /\ orchard_id t = o /\ row_id t = Some r
                       /\ position t = Some p)
  /\ checkDuplicateRowPosition {| orchards := [o]; trees := [tree_at o "1" p] |} o "1" p
     = true
  /\ checkDuplicateRowPosition {| orchards := [o]; trees := [tree_at o "1" p] |} o "01" p
     = false.
Proof.
  split; [|split; [discriminate|split; [reflexivity|split]]].
  - intros r. unfold generateTreeId, padStart0, zeros.
    rewrite !append_assoc. reflexivity.
  - intros db r. apply checkDuplicateRowPosition_spec.
  - split.
    + unfold checkDuplicateRowPosition, at_row_position; cbn.
      rewrite !bool_decide_eq_true_2 by reflexivity. reflexivity.
    + apply padded_row_not_found.
Qed.

(** What follows for [insertTree]: after a tree of row [1], a tree of row
    [01] at the same position passes the duplicate check and is refused by
    the unique constraint on [tree_id]. *)
Lemma insert_padded_row_rejected (o : string) (p : Z) :
  o <> EmptyString ->
  insertTree {| orchards := [o]; trees := [tree_at o "1" p] |}
    {| d_orchard_id := o; d_row_id := "01"; d_position := Some p;
       d_lat := None; d_lng := None; d_otherFields := [] |}
  = Rejected ("Failed to insert tree: " ++ unique_violation).
Proof.
  intros Ho. unfold insertTree. cbn [d_position d_orchard_id d_row_id].
  rewrite (bool_decide_eq_false_2 (o = EmptyString)) by exact Ho.
  rewrite (bool_decide_eq_false_2 ("01" = EmptyString)) by discriminate.
  cbn [orb].
  rewrite padded_row_not_found. unfold insert_row. cbn [trees tree_id existsb tree_at].
  rewrite bool_decide_eq_true_2 by reflexivity. reflexivity.
Qed.

End TreesProofs.

(** ** More on the tile route *)

Module TileRouteProofs.
Import Js TileServer.

Lemma digitValue_pretty_char (k : N) :
  (k < 10)%N -> digitValue (pretty_N_char k) = Some (Z.of_N k).
Proof.
  intros Hk.
  assert (Hcases : k = 0%N \/ k = 1%N \/ k = 2%N \/ k = 3%N \/ k = 4%N \/ k = 5%N
                   \/ k = 6%N \/ k = 7%N \/ k = 8%N \/ k = 9%N) by lia.
  repeat (destruct Hcases as [->|Hcases]; [reflexivity|]). subst k. reflexivity.
Qed.

(** Reading back the digits that [pretty] wrote. *)
Lemma readDigits_pretty_go (x : N) (s : string) :
  (0 < x)%N ->
  readDigits 10 (pretty_N_go x s) None = readDigits 10 s (Some (Z.of_N x)).
Proof.
  revert s. induction (N.lt_wf_0 x) as [x _ IH]. intros s Hx.
  rewrite pretty_N_go_step by exact Hx.
  assert (Hmod : (x `mod` 10 < 10)%N) by (apply N.mod_lt; discriminate).
  assert (Hdiv : (x = 10 * (x `div` 10) + x `mod` 10)%N) by (apply N.div_mod; discriminate).
  destruct (decide (x `div` 10 = 0)%N) as [H0|Hpos].
  - rewrite H0, pretty_N_go_0. cbn [readDigits].
    rewrite (digitValue_pretty_char _ Hmod).
    replace (Z.of_N (x `mod` 10) <? 10) with true by (symmetry; apply Z.ltb_lt; lia).
    cbn [from_option id].
    replace (10 * 0 + Z.of_N (x `mod` 10)) with (Z.of_N x) by lia. reflexivity.
  - rewrite IH; [| apply N.div_lt; lia | lia].
    cbn [readDigits]. rewrite (digitValue_pretty_char _ Hmod).
    replace (Z.of_N (x `mod` 10) <? 10) with true by (symmetry; apply Z.ltb_lt; lia).
    cbn [from_option]. unfold id.
    replace (10 * Z.of_N (x `div` 10) + Z.of_N (x `mod` 10)) with (Z.of_N x) by lia.
    reflexivity.
Qed.

(** The first character [pretty] writes for a positive number is a digit
    from 1 to 9. *)
Lemma pretty_go_head (x : N) (s : string) :
  (0 < x)%N ->
  exists k rest, (0 < k < 10)%N /\ pretty_N_go x s = String (pretty_N_char k) rest.
Proof.
  revert s. induction (N.lt_wf_0 x) as [x _ IH]. intros s Hx.
  rewrite pretty_N_go_step by exact Hx.
  assert (Hmod : (x `mod` 10 < 10)%N) by (apply N.mod_lt; discriminate).
  assert (Hdiv : (x = 10 * (x `div` 10) + x `mod` 10)%N) by (apply N.div_mod; discriminate).
  destruct (decide (x `div` 10 = 0)%N) as [H0|Hpos].
  - rewrite H0, pretty_N_go_0. exists (x `mod` 10)%N, s. split; [lia | reflexivity].
  - apply IH; [apply N.div_lt; lia | lia].
Qed.

Lemma parseInt_leading_digit (k : N) (rest : string) :
  (0 < k < 10)%N ->
  parseInt (String (pretty_N_char k) rest)
  = match readDigits 10 (String (pretty_N_char k) rest) None with
    | None => NaN
    | Some n => toNumber 1 n
    end
  /\ parseInt (String "-" (String (pretty_N_char k) rest))
     = match readDigits 10 (String (pretty_N_char k) rest) None with
       | None => NaN
       | Some n => toNumber (-1) n
       end.
Proof.
  intros Hk.
  assert (Hcases : k = 1%N \/ k = 2%N \/ k = 3%N \/ k = 4%N \/ k = 5%N
                   \/ k = 6%N \/ k = 7%N \/ k = 8%N \/ k = 9%N) by lia.
  repeat (destruct Hcases as [->|Hcases]; [split; reflexivity|]).
  subst k. split; reflexivity.
Qed.

(** [parseInt] reads back the decimal notation of an integer up to
    [MAX_SAFE_INTEGER] in magnitude. *)
Lemma parseInt_pretty (n : Z) :
  Z.abs n <= MAX_SAFE_INTEGER -> parseInt (pretty n) = Int n.
Proof.
  intros Hn.
  destruct n as [|p|p]; [reflexivity| |].
  - change (pretty (Z.pos p)) with (pretty_N_go (N.pos p) EmptyString).
    destruct (pretty_go_head (N.pos p) EmptyString) as (k & rest & Hk & Hs); [reflexivity|].
    pose proof (readDigits_pretty_go (N.pos p) EmptyString eq_refl) as Hread.
    rewrite Hs in Hread |- *.
    rewrite (proj1 (parseInt_leading_digit k rest Hk)), Hread.
    cbn [readDigits]. rewrite TileServerProofs.toNumber_safe by (cbn [Z.of_N]; lia).
    reflexivity.
  - change (pretty (Z.neg p)) with (String "-" (pretty_N_go (N.pos p) EmptyString)).
    destruct (pretty_go_head (N.pos p) EmptyString) as (k & rest & Hk & Hs); [reflexivity|].
    pose proof (readDigits_pretty_go (N.pos p) EmptyString eq_refl) as Hread.
    rewrite Hs in Hread |- *.
    rewrite (proj2 (parseInt_leading_digit k rest Hk)), Hread.
    cbn [readDigits]. rewrite TileServerProofs.toNumber_safe by (cbn [Z.of_N]; lia).
    reflexivity.
Qed.

End TileRouteProofs.

Module TileRouteExtras.
Import Js TileServer TileSamples.

Lemma find_matches_NaN (rows : list TileRow) (zoom tileX tmsY : Num) :
  zoom = NaN \/ tileX = NaN \/ tmsY = NaN ->
  db_get rows zoom tileX tmsY = None.
Proof.
  intros H. unfold db_get.
  induction rows as [|row rows IH]; [reflexivity|].
  cbn [List.find].
  replace (matches zoom tileX tmsY row) with false; [exact IH|].
  destruct H as [->|[->| ->]]; [reflexivity| |];
    destruct zoom; try reflexivity; destruct tileX; reflexivity.
Qed.

(** X1.  The route answers in one of three ways: the tile with status 200
    and the content-type, cache and CORS headers; a 404 text; or a 500 text,
    which is never empty. *)
Theorem GET_answers (w : World) (orchard z x y : string) :
  (exists d, GET w orchard z x y = tile_response d (contentType d))
  \/ (exists text, GET w orchard z x y = text_response text 404)
  \/ (exists text, GET w orchard z x y = text_response text 500 /\ text <> EmptyString).
Proof.
  unfold GET. destruct (falsy _); [right; left; eauto|].
  destruct (query _ _ _ _ _) as [[d|]|message].
  - left. eauto.
  - right; left; eauto.
  - right; right. eexists. split; [reflexivity|].
    destruct (decide (message = EmptyString)) as [->|Hne]; [discriminate|].
    rewrite bool_decide_eq_false_2 by exact Hne. exact Hne.
Qed.

(** X2.  For an archive of the table whose database opens, a request with a
    coordinate that is not a number is answered 404, whatever the table
    holds. *)
Theorem non_numeric_coordinate_404
  (w : World) (orchard z x y p : string) (rows : list TileRow) :
  get_property w orchard = PathString p ->
  databases w !! p = Some (inr rows) ->
  parseInt z = NaN \/ parseInt x = NaN \/ parseInt y = NaN ->
  GET w orchard z x y
  = text_response (not_found_text (parseInt z) (parseInt x) (parseInt y)) 404.
Proof.
  intros Hp Hdb Hnan.
  rewrite (TileServerProofs.GET_own _ _ _ _ _ _ _ Hp Hdb).
  rewrite (find_matches_NaN rows _ _ _ Hnan). reflexivity.
Qed.

Lemma non_numeric_coordinate_404_witness :
  GET mixed_world "manytrees" "2" "1" "north"
  = text_response "Tile not found: 2/1/NaN (TMS: NaN)" 404.
Proof.
  rewrite (non_numeric_coordinate_404 mixed_world "manytrees" "2" "1" "north"
             "/srv/public/orchards/manytreesorchard/manytrees.mbtiles"
             [null_tile; jpeg_tile]);
    [reflexivity | reflexivity | reflexivity | right; right; reflexivity].
Defined.

(** X3.  An identifier that is neither of the two archives of the table nor
    a member of [Object.prototype] is answered 404 with the identifier in
    the text, whatever the databases hold. *)
Theorem unlisted_orchard_404 (w : World) (orchard z x y : string) :
  orchard <> "manytrees" -> orchard <> "washington" ->
  orchard ∉ Object_prototype ->
  GET w orchard z x y = text_response ("Orchard '" ++ orchard ++ "' not found") 404.
Proof.
  intros Hm Hw Hproto. apply TileServerProofs.unknown_orchard_404; [|exact Hproto].
  unfold MBTILES_PATHS. rewrite !lookup_insert_ne by congruence. apply lookup_empty.
Qed.

Lemma unlisted_orchard_404_witness :
  GET mixed_world "oregon" "2" "1" "3" = text_response "Orchard 'oregon' not found" 404.
Proof.
  apply (unlisted_orchard_404 mixed_world "oregon" "2" "1" "3");
    [discriminate | discriminate |].
  unfold Object_prototype. intros Hin.
  repeat (apply elem_of_cons in Hin as [Hin|Hin]; [discriminate|]).
  inversion Hin.
Defined.

(** X4.  When the coordinates are written in decimal, are at most
    [MAX_SAFE_INTEGER] in magnitude, and the table holds no tile at them, the
    404 text repeats them as they were written. *)
Theorem tile_miss_echoes_request
  (w : World) (orchard p : string) (rows : list TileRow) (zoom column row : Z) :
  get_property w orchard = PathString p ->
  databases w !! p = Some (inr rows) ->
  Z.abs zoom <= MAX_SAFE_INTEGER -> Z.abs column <= MAX_SAFE_INTEGER ->
  Z.abs row <= MAX_SAFE_INTEGER ->
  (forall r, r ∈ rows ->
             ~ (zoom_level r = zoom /\ tile_column r = column /\ tile_row r = row)) ->
  GET w orchard (pretty zoom) (pretty column) (pretty row)
  = text_response
      ("Tile not found: " ++ pretty zoom ++ "/" ++ pretty column ++ "/" ++ pretty row
         ++ " (TMS: " ++ pretty row ++ ")")
      404.
Proof.
  intros Hp Hdb Bz Bx By Hmiss.
  rewrite (TileServerProofs.GET_own _ _ _ _ _ _ _ Hp Hdb).
  rewrite (TileRouteProofs.parseInt_pretty _ Bz), (TileRouteProofs.parseInt_pretty _ Bx),
    (TileRouteProofs.parseInt_pretty _ By).
  rewrite (TileServerProofs.not_found_text_safe _ _ _ Bz Bx By).
  replace (db_get rows (Int zoom) (Int column) (Int row)) with (@None TileRow);
    [reflexivity|].
  symmetry. unfold db_get.
  destruct (List.find _ rows) as [r|] eqn:Hfind; [|reflexivity].
  apply find_some in Hfind as [Hin Hmatch]. exfalso.
  apply (Hmiss r); [by apply list_elem_of_In|].
  cbn [matches] in Hmatch. rewrite !andb_true_iff, !Z.eqb_eq in Hmatch. tauto.
Qed.

Lemma tile_miss_echoes_request_witness :
  GET mixed_world "manytrees" "14" "100" "200"
  = text_response "Tile not found: 14/100/200 (TMS: 200)" 404.
Proof.
  apply (tile_miss_echoes_request mixed_world "manytrees"
           "/srv/public/orchards/manytreesorchard/manytrees.mbtiles"
           [null_tile; jpeg_tile] 14 100 200);
    [reflexivity | reflexivity | vm_compute; discriminate | vm_compute; discriminate
     | vm_compute; discriminate |].
  intros r Hin [Hz _].
  apply elem_of_cons in Hin as [->|Hin]; [discriminate|].
  apply list_elem_of_singleton in Hin as ->. discriminate.
Defined.

(** X5.  When the database of a listed archive cannot be opened or queried,
    the answer is 500 with the message of the error, or with
    [Internal server error] when the error has no message. *)
Theorem database_failure_500
  (w : World) (orchard z x y p message : string) :
  get_property w orchard = PathString p ->
  databases w !! p = Some (inl message) ->
  GET w orchard z x y
  = text_response
      (if bool_decide (message = EmptyString) then "Internal server error" else message)
      500.
Proof.
  intros Hp Hdb. unfold GET.
  rewrite Hp, (TileServerProofs.own_path_truthy _ _ _ Hp).
  cbn [query]. rewrite Hdb. reflexivity.
Qed.

Lemma database_failure_500_witness :
  GET mixed_world "washington" "2" "1" "3"
  = text_response "SQLITE_CORRUPT: database disk image is malformed" 500.
Proof.
  rewrite (database_failure_500 mixed_world "washington" "2" "1" "3"
             "/srv/public/orchards/washington/tiles/orthomap.mbtiles"
             "SQLITE_CORRUPT: database disk image is malformed");
    reflexivity.
Defined.

(** X6.  When no two rows of the table share zoom, column and row, a stored
    tile whose coordinates are at most [MAX_SAFE_INTEGER] in magnitude is
    served for every request that is read as its coordinates, with the
    content type of its bytes; a row whose data is NULL is answered 404 with
    the coordinates in the text. *)
Theorem stored_tile_served
  (w : World) (orchard z x y p : string) (rows : list TileRow) (row : TileRow) :
  get_property w orchard = PathString p ->
  databases w !! p = Some (inr rows) ->
  (forall r1 r2, r1 ∈ rows -> r2 ∈ rows ->
                 zoom_level r1 = zoom_level r2 -> tile_column r1 = tile_column r2 ->
                 tile_row r1 = tile_row r2 -> r1 = r2) ->
  row ∈ rows ->
  Z.abs (zoom_level row) <= MAX_SAFE_INTEGER ->
  Z.abs (tile_column row) <= MAX_SAFE_INTEGER ->
  Z.abs (tile_row row) <= MAX_SAFE_INTEGER ->
  parseInt z = Int (zoom_level row) ->
  parseInt x = Int (tile_column row) ->
  parseInt y = Int (tile_row row) ->
  GET w orchard z x y
  = match tile_data row with
    | Some d => tile_response d (contentType d)
    | None => text_response
                ("Tile not found: " ++ pretty (zoom_level row) ++ "/"
                   ++ pretty (tile_column row) ++ "/" ++ pretty (tile_row row)
                   ++ " (TMS: " ++ pretty (tile_row row) ++ ")") 404
    end.
Proof.
  intros Hp Hdb Huniq Hin Bz Bx By Hz Hx Hy.
  rewrite (TileServerProofs.GET_own _ _ _ _ _ _ _ Hp Hdb), Hz, Hx, Hy.
  rewrite (TileServerProofs.not_found_text_safe _ _ _ Bz Bx By).
  unfold db_get.
  destruct (List.find _ rows) as [r|] eqn:Hfind.
  - apply find_some in Hfind as [Hr Hmatch].
    cbn [matches] in Hmatch. rewrite !andb_true_iff, !Z.eqb_eq in Hmatch.
    destruct Hmatch as [[Hrz Hrx] Hry].
    assert (r = row) as ->.
    { apply Huniq; [by apply list_elem_of_In | exact Hin | | |]; assumption. }
    destruct row as [? ? ? [d|]]; reflexivity.
  - exfalso. apply list_elem_of_In in Hin.
    pose proof (find_none _ _ Hfind row Hin) as Hno.
    cbn [matches] in Hno. rewrite !Z.eqb_refl in Hno. discriminate.
Qed.

Lemma stored_tile_served_witness :
  GET mixed_world "manytrees" "2" "1" "3"
  = tile_response [xff; xd8; xff; xe0] "image/jpeg"
  /\ GET mixed_world "manytrees" "2" "1" "2"
     = text_response "Tile not found: 2/1/2 (TMS: 2)" 404.
Proof.
  assert (Huniq : forall r1 r2 : TileRow,
             r1 ∈ [null_tile; jpeg_tile] -> r2 ∈ [null_tile; jpeg_tile] ->
             zoom_level r1 = zoom_level r2 -> tile_column r1 = tile_column r2 ->
             tile_row r1 = tile_row r2 -> r1 = r2).
  { intros r1 r2 H1 H2 _ _ Hrow.
    apply elem_of_cons in H1 as [->|H1]; apply elem_of_cons in H2 as [->|H2];
      try apply list_elem_of_singleton in H1 as ->;
      try apply list_elem_of_singleton in H2 as ->;
      try reflexivity; discriminate. }
  split.
  - rewrite (stored_tile_served mixed_world "manytrees" "2" "1" "3"
               "/srv/public/orchards/manytreesorchard/manytrees.mbtiles"
               [null_tile; jpeg_tile] jpeg_tile);
      try reflexivity; try (vm_compute; discriminate); [exact Huniq | right; left].
  - rewrite (stored_tile_served mixed_world "manytrees" "2" "1" "2"
               "/srv/public/orchards/manytreesorchard/manytrees.mbtiles"
               [null_tile; jpeg_tile] null_tile);
      try reflexivity; try (vm_compute; discriminate); [exact Huniq | left].
Defined.

End TileRouteExtras.

(** ** More on validation *)

Module ValidationExtras.
Import Js Upload ValidationSamples.
Import ValidationProofs.

Lemma nonempty_not_nil (ws : list string) : nonempty ws <> Some [].
Proof. destruct ws; discriminate. Qed.

Lemma Math_min_bounds (a b : Q) : (Math_min a b <= a)%Q /\ (Math_min a b <= b)%Q.
Proof.
  unfold Math_min. destruct (Qle_bool a b) eqn:H.
  - apply Qle_bool_iff in H. split; [apply Qle_refl | exact H].
  - split; [|apply Qle_refl]. apply Qlt_le_weak, Qnot_le_lt.
    intros Hle. apply Qle_bool_iff in Hle. congruence.
Qed.

(** Every result is a failure or the result of an accepted header. *)
Lemma validate_cases (got : Settled (option PMTilesHeader)) :
  (exists text, validatePMTilesFile got = invalid text)
  \/ (exists h kind ws a b c d,
         got = Resolved (Some h) /\
         check_tile_type h = Some (kind, ws) /\
         minLon h = Some a /\ minLat h = Some b /\
         maxLon h = Some c /\ maxLat h = Some d).
Proof.
  destruct got as [[h|]|message]; [|left; eexists; reflexivity..].
  destruct (check_tile_type h) as [[kind ws]|] eqn:Ht.
  - destruct (minLon h) as [a|] eqn:Ha, (minLat h) as [b|] eqn:Hb,
             (maxLon h) as [c|] eqn:Hc, (maxLat h) as [d|] eqn:Hd;
      try (left; eexists; unfold validatePMTilesFile;
           rewrite Ht, ?Ha, ?Hb, ?Hc, ?Hd; reflexivity).
    right. exists h, kind, ws, a, b, c, d. repeat split; assumption.
  - left. eexists. unfold validatePMTilesFile. rewrite Ht. reflexivity.
Qed.

(** X7.  A result is valid exactly when it has no error; a result that is
    not valid has neither warnings nor metadata; and the warnings are never
    an empty list. *)
Theorem validation_result_shape (got : Settled (option PMTilesHeader)) :
  (valid (validatePMTilesFile got) = true <-> error (validatePMTilesFile got) = None)
  /\ (valid (validatePMTilesFile got) = false ->
      warnings (validatePMTilesFile got) = None
      /\ metadata (validatePMTilesFile got) = None)
  /\ warnings (validatePMTilesFile got) <> Some [].
Proof.
  destruct (validate_cases got)
    as [[text ->]|(h & kind & ws & a & b & c & d & -> & Ht & Ha & Hb & Hc & Hd)].
  - repeat split; discriminate.
  - rewrite (validate_accepted h kind ws a b c d Ht Ha Hb Hc Hd). cbn.
    repeat split; try discriminate. apply nonempty_not_nil.
Qed.

(** X8.  The maxZoom of the metadata never exceeds 21.5 nor the declared
    maxZoom, and the minZoom is the declared one. *)
Theorem max_zoom_never_above_cap
  (got : Settled (option PMTilesHeader)) (md : Metadata) :
  metadata (validatePMTilesFile got) = Some md ->
  exists h, got = Resolved (Some h)
            /\ (md_maxZoom md <= 21.5)%Q
            /\ (md_maxZoom md <= inject_Z (maxZoom h))%Q
            /\ md_minZoom md = minZoom h.
Proof.
  destruct (validate_cases got)
    as [[text ->]|(h & kind & ws & a & b & c & d & -> & Ht & Ha & Hb & Hc & Hd)];
    [discriminate|].
  rewrite (validate_accepted h kind ws a b c d Ht Ha Hb Hc Hd). cbn [metadata].
  intros [= <-]. exists h. cbn [md_maxZoom md_minZoom].
  destruct (Math_min_bounds (inject_Z (maxZoom h)) 21.5). auto.
Qed.

Lemma max_zoom_never_above_cap_witness :
  exists md, metadata (validatePMTilesFile (Resolved (Some (orchard_header 1 25)))) = Some md
             /\ (md_maxZoom md <= 21.5)%Q.
Proof.
  eexists. split; [reflexivity|].
  destruct (max_zoom_never_above_cap (Resolved (Some (orchard_header 1 25))) _ eq_refl)
    as (h & _ & Hcap & _).
  exact Hcap.
Defined.

(** X9.  A header that lacks one of the four bounds is refused: with the
    message about the tile type when the type is refused too, and otherwise
    with the message about the bounds. *)
Theorem missing_bound_refused (h : PMTilesHeader) :
  minLon h = None \/ minLat h = None \/ maxLon h = None \/ maxLat h = None ->
  validatePMTilesFile (Resolved (Some h))
  = invalid (match check_tile_type h with
             | Some _ => "PMTiles file does not contain valid geographic bounds"
             | None => unsupported_error h
             end).
Proof.
  intros Hmissing. unfold validatePMTilesFile.
  destruct (check_tile_type h) as [[kind ws]|]; [|reflexivity].
  destruct (minLon h), (minLat h), (maxLon h), (maxLat h); try reflexivity.
  destruct Hmissing as [H|[H|[H|H]]]; discriminate.
Qed.

Lemma missing_bound_refused_witness :
  validatePMTilesFile (Resolved (Some no_south_header))
  = invalid "PMTiles file does not contain valid geographic bounds".
Proof.
  apply (missing_bound_refused no_south_header). right; left; reflexivity.
Defined.

(** X10.  For an accepted header that gives no center and whose bounds are
    ordered, the center of the metadata lies within the bounds. *)
Theorem derived_center_within_bounds (h : PMTilesHeader) (a b c d : Q) :
  passes_earlier_rules h = true ->
  minLon h = Some a -> minLat h = Some b -> maxLon h = Some c -> maxLat h = Some d ->
  centerLon h = None -> centerLat h = None ->
  (a <= c)%Q -> (b <= d)%Q ->
  exists md,
    metadata (validatePMTilesFile (Resolved (Some h))) = Some md
    /\ (a <= lng (center md) <= c)%Q
    /\ (b <= lat (center md) <= d)%Q.
Proof.
  intros Hpass Ha Hb Hc Hd Hcl Hct Hac Hbd.
  destruct (passes_inv h Hpass)
    as (kind & ws & a' & b' & c' & d' & Ht & _ & Ha' & Hb' & Hc' & Hd').
  rewrite (validate_accepted h kind ws a b c d Ht Ha Hb Hc Hd), Hcl, Hct.
  eexists. split; [reflexivity|]. cbn.
  repeat split.
  - apply Qle_shift_div_l; [reflexivity | lra].
  - apply Qle_shift_div_r; [reflexivity | lra].
  - apply Qle_shift_div_l; [reflexivity | lra].
  - apply Qle_shift_div_r; [reflexivity | lra].
Qed.

Lemma derived_center_within_bounds_witness :
  exists md,
    metadata (validatePMTilesFile (Resolved (Some (orchard_header 2 20)))) = Some md
    /\ (-123.169 <= lng (center md) <= -123.167)%Q.
Proof.
  destruct (derived_center_within_bounds (orchard_header 2 20)
              (-123.169) 48.141 (-123.167) 48.142)
    as (md & Hmd & Hlng & _); try reflexivity; try discriminate.
  exists md. split; [exact Hmd | exact Hlng].
Defined.

(** X11.  The warnings of a result are taken, in this order, from the vector
    warning, the world-bounds warning and the zoom warning: there are at
    most three and their order is fixed. *)
Theorem warnings_in_fixed_order (h : PMTilesHeader) :
  warnings_of (validatePMTilesFile (Resolved (Some h)))
    `sublist_of` [vector_warning; world_warning; zoom_warning h].
Proof.
  destruct (validate_cases (Resolved (Some h)))
    as [[text ->]|(h' & kind & ws & a & b & c & d & [= <-] & Ht & Ha & Hb & Hc & Hd)].
  - apply sublist_nil_l.
  - rewrite (validate_accepted h kind ws a b c d Ht Ha Hb Hc Hd), warnings_of_nonempty.
    assert (Hws : ws = [] \/ ws = [vector_warning]).
    { destruct (check_tile_type_cases h) as [[_ E]|[[_ E]|[_ [_ E]]]];
        rewrite E in Ht; inversion Ht; auto. }
    destruct Hws as [Hws|Hws]; subst ws;
      destruct (is_world a c b d), (Qgt_bool _ _); cbn [app];
      repeat first [apply sublist_nil_l | apply sublist_skip | apply sublist_cons].
Qed.

End ValidationExtras.

(** ** More on the upload route *)

Module UploadExtras.
Import Js Upload UploadSamples.

Lemma append_inv_head (a b c : string) : a ++ b = a ++ c -> b = c.
Proof.
  induction a as [|x a IH]; [auto|].
  change (String x (a ++ b) = String x (a ++ c) -> b = c). intros [= H]. auto.
Qed.

Lemma temp_final_differ (env : Env) (orchardId : string) :
  tempFilePath env <> finalPath env orchardId.
Proof.
  unfold tempFilePath, finalPath, path_join.
  rewrite TreesProofs.append_assoc. intros H.
  apply append_inv_head in H. vm_compute in H. discriminate.
Qed.

Lemma present_nonempty (field : option string) (s : string) :
  present field = Some s -> field = Some s /\ s <> EmptyString.
Proof. destruct field as [[|c t]|]; intros [= <-]; split; congruence. Qed.

Lemma insertOrchard_new (table : list OrchardRow) (name location : string) (md : Metadata) :
  orchardId_of name <> EmptyString -> name <> EmptyString -> location <> EmptyString ->
  orchardExists table (orchardId_of name) = false ->
  column_error (row_of name location md) = None ->
  insertOrchard table (row_of name location md)
  = Resolved (table ++ [row_of name location md])%list.
Proof.
  intros Hid Hn Hl Hex Hfits. unfold insertOrchard. rewrite Hfits.
  unfold row_of. cbn [Upload.id Upload.name Upload.location].
  rewrite !bool_decide_eq_false_2 by assumption. cbn [orb]. rewrite Hex. reflexivity.
Qed.

(** An insertion that resolves was of a row that the columns take. *)
Lemma insertOrchard_fits (table table' : list OrchardRow) (row : OrchardRow) :
  insertOrchard table row = Resolved table' -> column_error row = None.
Proof.
  unfold insertOrchard. destruct (_ || _); [discriminate|].
  destruct (orchardExists _ _); [discriminate|].
  destruct (column_error row); [discriminate | reflexivity].
Qed.

(** The route, for a request that reaches validation with an archive that
    validation accepts. *)
Lemma POST_accepted (env : Env) (st : State) (req : Request)
  (name location : string) (file : File) (md : Metadata) :
  reaches_validation st req name location file ->
  metadata (validatePMTilesFile (getHeader env (file_data file))) = Some md ->
  column_error (row_of name location md) = None ->
  exists warnings,
    POST env st req =
    let renamed :=
      <[finalPath env (orchardId_of name) := file_data file]>
        (delete (tempFilePath env) (files st)) in
    let table := (orchards_table st ++ [row_of name location md])%list in
    match updateOrchardsConfig (registry st) (orchardId_of name) name location md with
    | Rejected message =>
        (failed message,
         {| orchards_table := table; files := renamed; registry := registry st |})
    | Resolved entries =>
        (Success
           {| orchardId := orchardId_of name;
              message := "Orchard " ++ dq ++ name ++ dq ++ " created successfully";
              created_warnings := warnings;
              created_metadata := md;
              fileSizeMB := toFixed2 (inject_Z (size file) / 1048576)%Q |},
         {| orchards_table := table; files := renamed; registry := Some entries |})
    end.
Proof.
  intros (Hs & Hn & Hl & Hf & Hid & Hex & Hext & Hsize) Hmd Hfits.
  assert (Hvalid : valid (validatePMTilesFile (getHeader env (file_data file))) = true).
  { apply MetadataProofs.upload_metadata_iff_valid. rewrite Hmd. eauto. }
  destruct (present_nonempty _ _ Hn) as [_ Hname].
  destruct (present_nonempty _ _ Hl) as [_ Hloc].
  eexists. unfold POST. rewrite Hs, Hn, Hl, Hf. cbn [negb].
  rewrite bool_decide_eq_false_2 by exact Hid. rewrite Hex, Hext. cbn [negb].
  apply ValidationProofs.Qgt_bool_false in Hsize. rewrite Hsize.
  unfold ingest. rewrite Hvalid, Hmd. cbn [negb orchards_table files registry].
  fold (row_of name location md).
  rewrite (insertOrchard_new _ _ _ _ Hid Hname Hloc Hex Hfits).
  rewrite delete_insert_eq.
  destruct (updateOrchardsConfig _ _ _ _ _); unfold unlink_temp;
    cbn [orchards_table files registry];
    rewrite (delete_insert_ne _ _ _ _ (temp_final_differ env (orchardId_of name)));
    rewrite delete_delete_eq; reflexivity.
Qed.

(** An id of more than fifty characters passes every check of the route
    and is refused by the [id] column: the answer is 500, after the archive
    is moved to its final path, and no row is inserted. *)
Example over_long_id_refused :
  POST hill_env some_state long_name_request
  = (failed "Failed to insert orchard: value too long for type character varying(50)",
     {| orchards_table := orchards_table some_state;
        files := <[finalPath hill_env sixty_letters := file_data hill_file]>
                   (files some_state);
        registry := registry some_state |}).
Proof. vm_compute. reflexivity. Qed.

Lemma orchardExists_snoc (table : list OrchardRow) (row : OrchardRow) :
  orchardExists (table ++ [row]) (id row) = true.
Proof.
  unfold orchardExists. rewrite existsb_app. cbn.
  rewrite bool_decide_eq_true_2 by reflexivity. cbn. apply orb_true_r.
Qed.

(** X12.  An answer with a status other than 500 and other than success
    leaves the [orchards] table and the registry as they were, and every
    file other than the temporary one as it was. *)
Theorem client_error_changes_nothing
  (env : Env) (st : State) (req : Request) (status : Z) (error : string) (details : Details) :
  fst (POST env st req) = Failure status error details ->
  status <> 500 ->
  orchards_table (snd (POST env st req)) = orchards_table st
  /\ registry (snd (POST env st req)) = registry st
  /\ forall path, path <> tempFilePath env ->
                  files (snd (POST env st req)) !! path = files st !! path.
Proof.
  unfold POST.
  destruct (session req); [|intros _ _; repeat split]. cbn [negb].
  destruct (present (form_name req)) as [name|]; [|intros _ _; repeat split].
  destruct (present (form_location req)) as [location|]; [|intros _ _; repeat split].
  destruct (form_pmtilesFile req) as [file|]; [|intros _ _; repeat split].
  destruct (bool_decide _); [intros _ _; repeat split|].
  destruct (orchardExists _ _); [intros _ _; repeat split|].
  destruct (negb _); [intros _ _; repeat split|].
  destruct (Qgt_bool _ 2048); [intros _ _; repeat split|].
  unfold ingest.
  assert (Hfiles : forall data path, path <> tempFilePath env ->
            delete (tempFilePath env) (<[tempFilePath env := data]> (files st)) !! path
            = files st !! path).
  { intros data path Hne. rewrite delete_insert_eq. apply lookup_delete_ne. congruence. }
  destruct (valid _); cbn [negb].
  - destruct (metadata _) as [md|].
    + destruct (insertOrchard _ _) as [table|m]; cbn [fst].
      * destruct (updateOrchardsConfig _ _ _ _ _); cbn [fst]; [discriminate|].
        intros [= <- _ _] Hne. contradiction.
      * intros [= <- _ _] Hne. contradiction.
    + intros _ _. cbn. repeat split. apply Hfiles.
  - intros _ _. cbn. repeat split. apply Hfiles.
Qed.

Lemma client_error_changes_nothing_witness :
  fst (POST hill_env some_state anonymous_request)
  = Failure 401 "Unauthorized. Please sign in." NoDetails
  /\ orchards_table (snd (POST hill_env some_state anonymous_request))
     = orchards_table some_state.
Proof.
  split; [reflexivity|].
  apply (client_error_changes_nothing hill_env some_state anonymous_request
           401 "Unauthorized. Please sign in." NoDetails); [reflexivity | discriminate].
Defined.

(** X13.  When the request reaches validation, the archive is accepted, the
    columns of the [orchards] table take the row of the new orchard and the
    configuration file holds its [orchards] object, the route answers with
    success and afterwards: the table has gained that row, whose id then
    exists; the archive is stored under the final path of that id and the
    temporary file is gone; and no file other than these two and the
    configuration file has changed. *)
Theorem upload_success_persists
  (env : Env) (st : State) (req : Request) (name location : string) (file : File)
  (md : Metadata) (entries : list OrchardConfig) :
  reaches_validation st req name location file ->
  metadata (validatePMTilesFile (getHeader env (file_data file))) = Some md ->
  column_error (row_of name location md) = None ->
  registry st = Some entries ->
  (exists created,
      fst (POST env st req) = Success created
      /\ orchardId created = orchardId_of name
      /\ created_metadata created = md)
  /\ orchards_table (snd (POST env st req))
     = (orchards_table st ++ [row_of name location md])%list
  /\ orchardExists (orchards_table (snd (POST env st req))) (orchardId_of name) = true
  /\ files (snd (POST env st req)) !! finalPath env (orchardId_of name)
     = Some (file_data file)
  /\ files (snd (POST env st req)) !! tempFilePath env = None
  /\ forall path,
       path <> finalPath env (orchardId_of name) -> path <> tempFilePath env ->
       path <> path_join (cwd env) "lib/orchards.ts" ->
       files (snd (POST env st req)) !! path = files st !! path.
Proof.
  intros Hreach Hmd Hfits Hreg.
  destruct (POST_accepted env st req name location file md Hreach Hmd Hfits) as [ws ->].
  rewrite Hreg. cbn.
  split; [eauto|]. split; [reflexivity|].
  split; [apply (orchardExists_snoc _ (row_of name location md))|].
  split; [apply lookup_insert_eq|]. split.
  - rewrite lookup_insert_ne by (apply not_eq_sym, temp_final_differ).
    apply lookup_delete_eq.
  - intros path Hfinal Htemp _.
    rewrite lookup_insert_ne by congruence. apply lookup_delete_ne. congruence.
Qed.

Lemma hill_reaches :
  reaches_validation some_state hill_request "Hill Orchard #2" "Oregon, USA" hill_file.
Proof. repeat split; try reflexivity; vm_compute; discriminate. Qed.

Lemma upload_success_persists_witness :
  orchardExists (orchards_table (snd (POST hill_env some_state hill_request)))
    "hill-orchard-2" = true
  /\ files (snd (POST hill_env some_state hill_request))
       !! "/app/public/orchards/hill-orchard-2/tiles/orthomap.pmtiles"
     = Some [x50; x4d; x54; x69].
Proof.
  destruct (upload_success_persists hill_env some_state hill_request
              "Hill Orchard #2" "Oregon, USA" hill_file _ []
              hill_reaches eq_refl eq_refl eq_refl)
    as (_ & _ & Hexists & Hfinal & _).
  split; [exact Hexists | exact Hfinal].
Defined.

Lemma POST_success_inv (env : Env) (st : State) (req : Request) (created : Created) :
  fst (POST env st req) = Success created ->
  exists name location file md,
    reaches_validation st req name location file
    /\ metadata (validatePMTilesFile (getHeader env (file_data file))) = Some md
    /\ column_error (row_of name location md) = None.
Proof.
  unfold POST.
  destruct (session req) eqn:Hs; [|discriminate]. cbn [negb].
  destruct (present (form_name req)) as [name|] eqn:Hn; [|discriminate].
  destruct (present (form_location req)) as [location|] eqn:Hl; [|discriminate].
  destruct (form_pmtilesFile req) as [file|] eqn:Hf; [|discriminate].
  destruct (bool_decide _) eqn:Hid; [discriminate|].
  destruct (orchardExists _ _) eqn:Hex; [discriminate|].
  destruct (negb _) eqn:Hext; [discriminate|].
  destruct (Qgt_bool _ 2048) eqn:Hsize; [discriminate|].
  unfold ingest. destruct (valid _); cbn [negb]; [|discriminate].
  destruct (metadata _) as [md|] eqn:Hmd; [|discriminate].
  destruct (insertOrchard _ _) as [table|m] eqn:Hinsert; [|discriminate].
  intros _. exists name, location, file, md.
  split; [|split; [exact Hmd | exact (insertOrchard_fits _ _ _ Hinsert)]].
  repeat split; try assumption.
  - intros H. apply bool_decide_eq_false in Hid. contradiction.
  - apply negb_false_iff. exact Hext.
  - apply ValidationProofs.Qgt_bool_false. exact Hsize.
Qed.

(** X14.  After an upload that succeeded, the same request is answered 409,
    whatever the clock and the archive reader are by then, and changes
    nothing. *)
Theorem second_upload_conflicts
  (env env' : Env) (st : State) (req : Request) (created : Created) :
  fst (POST env st req) = Success created ->
  exists details,
    POST env' (snd (POST env st req)) req
    = (Failure 409 "Orchard already exists" details, snd (POST env st req)).
Proof.
  intros Hsuccess.
  destruct (POST_success_inv _ _ _ _ Hsuccess)
    as (name & location & file & md & Hreach & Hmd & Hfits).
  destruct (POST_accepted env st req name location file md Hreach Hmd Hfits) as [ws HPOST].
  rewrite HPOST in Hsuccess |- *. clear HPOST.
  destruct Hreach as (Hs & Hn & Hl & Hf & Hid & _).
  destruct (updateOrchardsConfig _ _ _ _ _) as [entries|m]; [|discriminate].
  cbn [snd]. eexists. unfold POST. rewrite Hs, Hn, Hl, Hf. cbn [negb].
  rewrite bool_decide_eq_false_2 by exact Hid. cbn [orchards_table].
  rewrite (orchardExists_snoc _ (row_of name location md)). reflexivity.
Qed.

Lemma second_upload_conflicts_witness :
  fst (POST hill_env (snd (POST hill_env some_state hill_request)) hill_request)
  = Failure 409 "Orchard already exists"
      (TextDetails ("An orchard with ID " ++ dq ++ "hill-orchard-2" ++ dq
                    ++ " already exists. Please use a different name.")).
Proof.
  destruct (second_upload_conflicts hill_env hill_env some_state hill_request
              _ eq_refl) as [details Hsecond].
  rewrite Hsecond. cbn [fst].
  assert (Hfst := f_equal fst Hsecond). cbn [fst] in Hfst.
  rewrite <- Hfst. reflexivity.
Defined.

(** X15.  When the archive is accepted and the columns of the [orchards]
    table take the row of the new orchard, but the configuration file holds
    no [orchards] object, the route answers 500 after the row is inserted
    and the archive is moved to its final path: nothing is rolled back, and
    the id exists from then on. *)
Theorem no_rollback_on_registry_failure
  (env : Env) (st : State) (req : Request) (name location : string) (file : File)
  (md : Metadata) :
  reaches_validation st req name location file ->
  metadata (validatePMTilesFile (getHeader env (file_data file))) = Some md ->
  column_error (row_of name location md) = None ->
  registry st = None ->
  fst (POST env st req)
  = Failure 500 "Failed to create orchard"
      (TextDetails "Could not find orchards object in orchards.ts")
  /\ orchards_table (snd (POST env st req))
     = (orchards_table st ++ [row_of name location md])%list
  /\ orchardExists (orchards_table (snd (POST env st req))) (orchardId_of name) = true
  /\ files (snd (POST env st req)) !! finalPath env (orchardId_of name)
     = Some (file_data file)
  /\ registry (snd (POST env st req)) = None.
Proof.
  intros Hreach Hmd Hfits Hreg.
  destruct (POST_accepted env st req name location file md Hreach Hmd Hfits) as [ws ->].
  rewrite Hreg. cbn.
  split; [reflexivity|]. split; [reflexivity|].
  split; [apply (orchardExists_snoc _ (row_of name location md))|].
  split; [apply lookup_insert_eq | reflexivity].
Qed.

Lemma hill_reaches_no_registry :
  reaches_validation no_registry_state hill_request "Hill Orchard #2" "Oregon, USA"
    hill_file.
Proof. repeat split; try reflexivity; vm_compute; discriminate. Qed.

Lemma no_rollback_on_registry_failure_witness :
  fst (POST hill_env no_registry_state hill_request)
  = Failure 500 "Failed to create orchard"
      (TextDetails "Could not find orchards object in orchards.ts")
  /\ orchardExists (orchards_table (snd (POST hill_env no_registry_state hill_request)))
       "hill-orchard-2" = true.
Proof.
  destruct (no_rollback_on_registry_failure hill_env no_registry_state hill_request
              "Hill Orchard #2" "Oregon, USA" hill_file _
              hill_reaches_no_registry eq_refl eq_refl eq_refl)
    as (Hresp & _ & Hexists & _).
  split; [exact Hresp | exact Hexists].
Defined.

End UploadExtras.

(** ** The id derived from the name of an orchard *)

Module SlugProofs.
Import Js Upload.

Lemma append_cons (x : ascii) (a b : string) : String x a ++ b = String x (a ++ b).
Proof. reflexivity. Qed.

Lemma append_nil_r (a : string) : a ++ EmptyString = a.
Proof. induction a as [|x a IH]; [reflexivity|]. rewrite append_cons, IH. reflexivity. Qed.

Lemma rev_app_spec (s1 s2 : string) : String.rev_app s1 s2 = String.rev s1 ++ s2.
Proof.
  unfold String.rev. revert s2.
  induction s1 as [|x s1 IH]; intros s2; [reflexivity|].
  cbn [String.rev_app]. rewrite IH, (IH (String x EmptyString)).
  rewrite TreesProofs.append_assoc. reflexivity.
Qed.

Lemma rev_cons (x : ascii) (s : string) :
  String.rev (String x s) = String.rev s ++ String x EmptyString.
Proof. unfold String.rev at 1. cbn [String.rev_app]. apply rev_app_spec. Qed.

Lemma rev_append (a b : string) : String.rev (a ++ b) = String.rev b ++ String.rev a.
Proof.
  induction a as [|x a IH].
  - change (EmptyString ++ b) with b. symmetry. apply append_nil_r.
  - rewrite append_cons, !rev_cons, IH. apply TreesProofs.append_assoc.
Qed.

Lemma rev_involutive (s : string) : String.rev (String.rev s) = s.
Proof.
  induction s as [|x s IH]; [reflexivity|].
  rewrite rev_cons, rev_append, IH. reflexivity.
Qed.

Lemma dash_not_alnum (c : ascii) : isLowerAlnum c = true -> c <> "-"%char.
Proof. intros H ->. discriminate. Qed.

(** [dropDashes] removes a prefix and leaves no dash in front. *)
Lemma dropDashes_suffix (s : string) :
  (exists d, s = d ++ dropDashes s) /\ forall t, dropDashes s <> String "-" t.
Proof.
  induction s as [|c s [[d Hd] Hhead]].
  - split; [exists EmptyString; reflexivity | discriminate].
  - destruct (decide (c = "-"%char)) as [->|Hc].
    + cbn [dropDashes]. split; [|exact Hhead].
      exists (String "-" d). rewrite append_cons, <- Hd. reflexivity.
    + assert (Hsame : dropDashes (String c s) = String c s).
      { destruct c as [[] [] [] [] [] [] [] []]; try reflexivity. contradiction. }
      rewrite Hsame. split; [exists EmptyString; reflexivity|].
      intros t [= E _]. contradiction.
Qed.

Section Shape.

(** The characters of an id, and the shapes it must not have. *)
Let chars_ok (s : string) : Prop :=
  forall a c b, s = a ++ String c b -> isLowerAlnum c = true \/ c = "-"%char.
Let no_double (s : string) : Prop := forall a b, s <> a ++ "--" ++ b.

Lemma replaceRuns_shape (s : string) (inRun : bool) :
  chars_ok (replaceRuns s inRun)
  /\ no_double (replaceRuns s inRun)
  /\ (inRun = true -> forall t, replaceRuns s inRun <> String "-" t).
Proof.
  subst chars_ok no_double. cbv beta.
  revert inRun. induction s as [|c s IH]; intros inRun.
  - repeat split.
    + intros [|? ?] ? ?; discriminate.
    + intros [|? ?] ?; discriminate.
    + discriminate.
  - cbn [replaceRuns]. destruct (isLowerAlnum c) eqn:Hc.
    + destruct (IH false) as (Hok & Hdd & _). repeat split.
      * intros [|x a] c' b.
        -- intros [= <- _]. left. exact Hc.
        -- rewrite append_cons. intros [= _ E]. exact (Hok _ _ _ E).
      * intros [|x a] b.
        -- intros [= -> _]. discriminate.
        -- rewrite append_cons. intros [= _ E]. exact (Hdd _ _ E).
      * intros _ t [= -> _]. discriminate.
    + destruct inRun.
      * apply IH.
      * destruct (IH true) as (Hok & Hdd & Hhead). repeat split.
        -- intros [|x a] c' b.
           ++ intros [= <- _]. right. reflexivity.
           ++ rewrite append_cons. intros [= _ E]. exact (Hok _ _ _ E).
        -- intros [|x a] b.
           ++ intros [= E]. exact (Hhead eq_refl _ E).
           ++ rewrite append_cons. intros [= _ E]. exact (Hdd _ _ E).
        -- discriminate.
Qed.

Lemma shape_suffix (d s : string) :
  chars_ok (d ++ s) /\ no_double (d ++ s) -> chars_ok s /\ no_double s.
Proof.
  subst chars_ok no_double. cbv beta. intros [Hok Hdd]. split.
  - intros a c b E. apply (Hok (d ++ a) c b).
    rewrite E. symmetry. apply TreesProofs.append_assoc.
  - intros a b E. apply (Hdd (d ++ a) b).
    rewrite E. symmetry. apply TreesProofs.append_assoc.
Qed.

Lemma shape_rev (s : string) :
  chars_ok s /\ no_double s -> chars_ok (String.rev s) /\ no_double (String.rev s).
Proof.
  subst chars_ok no_double. cbv beta. intros [Hok Hdd]. split.
  - intros a c b E. apply (Hok (String.rev b) c (String.rev a)).
    rewrite <- (rev_involutive s), E, rev_append, rev_cons.
    rewrite TreesProofs.append_assoc. reflexivity.
  - intros a b E. apply (Hdd (String.rev b) (String.rev a)).
    rewrite <- (rev_involutive s), E, !rev_append.
    rewrite TreesProofs.append_assoc. reflexivity.
Qed.

(** X16.  The id derived from a name consists of lower-case letters, digits
    and dashes only, does not begin or end with a dash, and has no two
    dashes in a row; so it holds no slash and no dot. *)
Theorem orchardId_shape (name : string) :
  (forall a c b, orchardId_of name = a ++ String c b ->
                 isLowerAlnum c = true \/ c = "-"%char)
  /\ (forall b, orchardId_of name <> String "-" b)
  /\ (forall a, orchardId_of name <> a ++ "-")
  /\ (forall a b, orchardId_of name <> a ++ "--" ++ b).
Proof.
  unfold orchardId_of, trimDashes.
  set (r := replaceRuns (toLowerCase name) false).
  destruct (replaceRuns_shape (toLowerCase name) false) as (Hok & Hdd & _).
  fold r in Hok, Hdd.
  destruct (dropDashes_suffix r) as [[d Hd] Hhead].
  set (t := dropDashes r) in *.
  assert (Ht : chars_ok t /\ no_double t).
  { apply (shape_suffix d). rewrite <- Hd. split; assumption. }
  apply shape_rev in Ht.
  destruct (dropDashes_suffix (String.rev t)) as [[d' Hd'] Hhead'].
  set (u := dropDashes (String.rev t)) in *.
  assert (Hu : chars_ok u /\ no_double u).
  { apply (shape_suffix d'). rewrite <- Hd'. exact Ht. }
  apply shape_rev in Hu. destruct Hu as [Huok Hudd].
  split; [exact Huok|]. split; [|split; [|exact Hudd]].
  - intros b E. apply (Hhead (b ++ String.rev d')).
    rewrite <- (rev_involutive t), Hd', rev_append, E. reflexivity.
  - intros a E. apply (Hhead' (String.rev a)).
    rewrite <- (rev_involutive u), E, rev_append. reflexivity.
Qed.

End Shape.

End SlugProofs.

(** ** The [orchards] table *)

Module OrchardsDbProofs.
Import Js Upload.




End OrchardsDbProofs.

(** ** The client-side archive check *)

Module PmtilesLoaderProofs.
Import Js PmtilesUtils PmtilesLoader.

Lemma no_null_Forall (items : list Json) :
  existsb (fun l => match l with JNull => true | _ => false end) items = false
  <-> Forall (fun l => l <> JNull) items.
Proof.
  induction items as [|l items IH]; [split; [constructor | reflexivity]|].
  cbn [existsb]. rewrite orb_false_iff, IH, Forall_cons. split.
  - intros [Hl Hrest]. split; [|exact Hrest]. intros ->. discriminate.
  - intros [Hl Hrest]. split; [|exact Hrest]. destruct l; try reflexivity. contradiction.
Qed.

Lemma decide_array (v : Json) :
  (exists items, v = JArray items) \/ (forall items, v <> JArray items).
Proof. destruct v; try (right; discriminate). left. eauto. Qed.

(** X18.  The check answers valid, and [loadPMTilesSafely] opens the
    archive, exactly when reading the header and the metadata both succeed
    and the layer list of the metadata is missing, falsy, or an array
    without [null] entries; otherwise [loadPMTilesSafely] yields [null]. *)
Theorem client_check_valid_iff
  (url : string) (header : Settled unit) (got : Settled Json) :
  (valid (validatePMTiles header got) = true
   <-> exists u v, header = Resolved u /\ got = Resolved v /\ layers_readable v)
  /\ (loadPMTilesSafely url header got = Some url
      <-> valid (validatePMTiles header got) = true)
  /\ (loadPMTilesSafely url header got = None
      <-> valid (validatePMTiles header got) = false).
Proof.
  split.
  - unfold validatePMTiles, layers_readable.
    destruct header as [u|m]; [|split; [discriminate|intros (? & ? & [=] & _)]].
    destruct got as [v|m]; [|split; [discriminate|intros (? & ? & _ & [=] & _)]].
    destruct (truthy (get v "vector_layers")) eqn:Htruthy.
    + destruct (get v "vector_layers") as [layers|] eqn:Hget; [|discriminate].
      cbn [default from_option id].
      destruct (decide_array layers) as [[items ->]|Hnot].
      * cbn [layer_ids]. destruct (existsb _ items) eqn:Hnull.
        -- split; [discriminate|].
           intros (? & ? & _ & [= <-] & [H|(items' & H & Hall)]); [congruence|].
           rewrite Hget in H. injection H as <-.
           apply no_null_Forall in Hall. congruence.
        -- split; [|reflexivity]. intros _. exists u, v.
           split; [reflexivity|]. split; [reflexivity|]. right.
           exists items. split; [exact Hget|]. apply no_null_Forall. exact Hnull.
      * replace (layer_ids layers)
          with (@Rejected (list (option Json)) "metadata.vector_layers.map is not a function")
          by (destruct layers; try reflexivity; exfalso; eapply Hnot; reflexivity).
        split; [discriminate|].
        intros (? & ? & _ & [= <-] & [H|(items' & H & _)]); [congruence|].
        rewrite Hget in H. injection H as ->. exfalso. eapply Hnot; reflexivity.
    + split; [|reflexivity]. intros _. exists u, v. auto.
  - unfold loadPMTilesSafely.
    destruct (valid (validatePMTiles header got)); cbn [negb];
      split; split; congruence.
Qed.

Lemma client_check_valid_iff_witness :
  loadPMTilesSafely "/orchards/washington/tiles/trees.pmtiles" (Resolved tt)
    (Resolved tippecanoe_metadata)
  = Some "/orchards/washington/tiles/trees.pmtiles".
Proof.
  destruct (client_check_valid_iff "/orchards/washington/tiles/trees.pmtiles"
              (Resolved tt) (Resolved tippecanoe_metadata)) as (Hvalid & Hload & _).
  apply Hload, Hvalid. exists tt, tippecanoe_metadata.
  split; [reflexivity|]. split; [reflexivity|]. right. eexists. split; [reflexivity|].
  repeat constructor; discriminate.
Defined.

End PmtilesLoaderProofs.

(** ** More of the [trees] table *)

Module TreesDbProofs.
Import Js Trees TreesDb.



(** What a resolved [insertTree] has checked and done. *)
Lemma insertTree_inv (db db' : Db) (d : TreeInsertData) (t : Tree) :
  insertTree db d = Resolved (t, db') ->
  exists p,
    d_position d = Some p
    /\ d_orchard_id d <> EmptyString /\ d_row_id d <> EmptyString
    /\ checkDuplicateRowPosition db (d_orchard_id d) (d_row_id d) p = false
    /\ existsb (fun t' => bool_decide (tree_id t' = tree_id t)) (trees db) = false
    /\ orchard_id t ∈ orchards db
    /\ t = {| tree_id := generateTreeId (d_orchard_id d) (d_row_id d) p;
              orchard_id := d_orchard_id d; row_id := Some (d_row_id d);
              position := Some p; lat := d_lat d; lng := d_lng d;
              other := d_otherFields d |}
    /\ db' = {| orchards := orchards db; trees := (trees db ++ [t])%list |}.
Proof.
  unfold insertTree. destruct (d_position d) as [p|]; [|discriminate].
  destruct (bool_decide (d_orchard_id d = EmptyString)) eqn:Ho; [discriminate|].
  destruct (bool_decide (d_row_id d = EmptyString)) eqn:Hr; [discriminate|].
  cbn [orb]. destruct (checkDuplicateRowPosition _ _ _ _) eqn:Hdup; [discriminate|].
  unfold insert_row. cbn [tree_id orchard_id].
  destruct (existsb _ (trees db)) eqn:Hid; [discriminate|].
  destruct (bool_decide (d_orchard_id d ∈ orchards db)) eqn:Hfk; [|discriminate].
  cbn [negb]. intros [= <- <-]. exists p.
  apply bool_decide_eq_false in Ho, Hr. apply bool_decide_eq_true in Hfk.
  repeat split; assumption.
Qed.



(** X20.  [insertTree] keeps the ids of the trees distinct and every tree in
    an orchard of the [orchards] table. *)
Theorem insertTree_keeps_table_sound (db db' : Db) (d : TreeInsertData) (t : Tree) :
  NoDup (tree_id <$> trees db) ->
  (forall t', t' ∈ trees db -> orchard_id t' ∈ orchards db) ->
  insertTree db d = Resolved (t, db') ->
  NoDup (tree_id <$> trees db')
  /\ (forall t', t' ∈ trees db' -> orchard_id t' ∈ orchards db').
Proof.
  intros Hnodup Hfk Hins.
  destruct (insertTree_inv _ _ _ _ Hins) as (p & _ & _ & _ & _ & Hid & Hin & _ & ->).
  cbn [trees orchards]. split.
  - rewrite fmap_app. apply NoDup_app. split; [exact Hnodup|]. split.
    + intros i Hi Hnew. apply list_elem_of_singleton in Hnew as ->.
      apply list_elem_of_fmap in Hi as (t' & Heq & Ht').
      apply list_elem_of_In in Ht'.
      assert (Hex : existsb (fun t' => bool_decide (tree_id t' = tree_id t)) (trees db) = true).
      { apply existsb_exists. exists t'. split; [exact Ht'|].
        apply bool_decide_eq_true. congruence. }
      congruence.
    + apply NoDup_singleton.
  - intros t' Ht'. apply elem_of_app in Ht' as [Ht'|Ht']; [auto|].
    apply list_elem_of_singleton in Ht' as ->. exact Hin.
Qed.

Lemma insertTree_keeps_table_sound_witness :
  exists t db',
    insertTree sample_db
      {| d_orchard_id := "washington"; d_row_id := "2"; d_position := Some 1;
         d_lat := None; d_lng := None; d_otherFields := [] |}
    = Resolved (t, db')
    /\ NoDup (tree_id <$> trees db').
Proof.
  eexists _, _. split; [reflexivity|].
  eapply (insertTree_keeps_table_sound sample_db _
            {| d_orchard_id := "washington"; d_row_id := "2"; d_position := Some 1;
               d_lat := None; d_lng := None; d_otherFields := [] |} _).
  - apply (bool_decide_unpack _). vm_compute. exact I.
  - intros t' Ht'. unfold sample_db in Ht'. cbn [trees] in Ht'.
    repeat (apply elem_of_cons in Ht' as [->|Ht']; [constructor|]).
    inversion Ht'.
  - reflexivity.
Defined.

Lemma find_filter_other (i j : string) (l : list Tree) :
  j <> i ->
  List.find (fun t => bool_decide (tree_id t = j))
    (List.filter (fun t => negb (bool_decide (tree_id t = i))) l)
  = List.find (fun t => bool_decide (tree_id t = j)) l.
Proof.
  intros Hne. induction l as [|t l IH]; [reflexivity|].
  cbn [List.filter List.find].
  destruct (decide (tree_id t = i)) as [Hi|Hi].
  - rewrite (bool_decide_eq_true_2 _ Hi). cbn [negb].
    rewrite bool_decide_eq_false_2 by congruence. exact IH.
  - rewrite (bool_decide_eq_false_2 _ Hi). cbn [negb List.find]. rewrite IH. reflexivity.
Qed.

Lemma find_filter_same (i : string) (l : list Tree) :
  List.find (fun t => bool_decide (tree_id t = i))
    (List.filter (fun t => negb (bool_decide (tree_id t = i))) l) = None.
Proof.
  induction l as [|t l IH]; [reflexivity|].
  cbn [List.filter].
  destruct (bool_decide (tree_id t = i)) eqn:Hi; cbn [negb List.find]; [exact IH|].
  rewrite Hi. exact IH.
Qed.

Lemma filter_length_lt (i : string) (l : list Tree) :
  (length (List.filter (fun t => negb (bool_decide (tree_id t = i))) l) <= length l)%nat
  /\ ((length (List.filter (fun t => negb (bool_decide (tree_id t = i))) l) < length l)%nat
      <-> is_Some (List.find (fun t => bool_decide (tree_id t = i)) l)).
Proof.
  induction l as [|t l [IHle IH]]; cbn [List.filter List.find length].
  - split; [lia|]. split; [lia | intros [? [=]]].
  - destruct (bool_decide (tree_id t = i)); cbn [negb length].
    + split; [lia|]. split; [eauto | lia].
    + split; [lia|]. rewrite <- IH. lia.
Qed.

(** X21.  [deleteTree] answers true exactly when a tree had the id; after
    it no tree has the id, every other id resolves as before, the
    [orchards] table is as before, and deleting again answers false. *)
Theorem deleteTree_removes_exactly (db : Db) (i : string) :
  (fst (deleteTree db i) = true <-> is_Some (getTreeById db i))
  /\ getTreeById (snd (deleteTree db i)) i = None
  /\ (forall j, j <> i -> getTreeById (snd (deleteTree db i)) j = getTreeById db j)
  /\ orchards (snd (deleteTree db i)) = orchards db
  /\ fst (deleteTree (snd (deleteTree db i)) i) = false.
Proof.
  unfold deleteTree, getTreeById. cbn [fst snd trees orchards].
  destruct (filter_length_lt i (trees db)) as [Hle Hlt].
  split; [|split; [|split; [|split]]].
  - rewrite <- Hlt, Z.ltb_lt. lia.
  - apply find_filter_same.
  - intros j Hj. apply find_filter_other. exact Hj.
  - reflexivity.
  - apply Z.ltb_ge.
    destruct (filter_length_lt i
                (List.filter (fun t => negb (bool_decide (tree_id t = i))) (trees db)))
      as [Hle' Hlt'].
    rewrite find_filter_same in Hlt'.
    assert (Hnot : ~ is_Some (@None Tree)) by (intros [? [=]]).
    rewrite <- Hlt' in Hnot. lia.
Qed.

End TreesDbProofs.

(** ** Bulk update *)

Module BulkUpdateProofs.
Import Js Trees TreesDb.

Section Engine.

Variable Value : Type.
Variable sql_update : Db -> string -> list (string * Value) -> option (Tree * Db).
Variable toDate : Value -> Value.
Variable truthyValue : Value -> bool.

Let bulk := bulkUpdateTrees Value sql_update.

Lemma bulk_counts (db : Db) (o : string) (updates : list (Update Value)) :
  updated (fst (bulk db o updates)) + Z.of_nat (length (errors (fst (bulk db o updates))))
  = Z.of_nat (length updates)
  /\ 0 <= updated (fst (bulk db o updates)).
Proof.
  subst bulk. revert db.
  induction updates as [|update rest IH]; intros db; [split; reflexivity|].
  cbn [bulkUpdateTrees].
  destruct (getTreeByRowPosition db o _ _) as [tree|].
  - destruct (updateTree _ _ _ _ _) as [[t|] db1];
      specialize (IH db1);
      destruct (bulkUpdateTrees _ _ db1 o rest) as [result db'];
      cbn [fst updated errors length] in *; lia.
  - specialize (IH db).
    destruct (bulkUpdateTrees _ _ db o rest) as [result db'].
    cbn [fst updated errors length] in *. lia.
Qed.

(** X22.  [bulkUpdateTrees] accounts for every update exactly once, whatever
    the database does: the number of updated trees and the number of errors
    add up to the number of updates, and the errors name rows and positions
    of the updates, in the order of the updates. *)
Theorem bulk_update_accounts_for_all (db : Db) (o : string) (updates : list (Update Value)) :
  updated (fst (bulk db o updates)) + Z.of_nat (length (errors (fst (bulk db o updates))))
  = Z.of_nat (length updates)
  /\ 0 <= updated (fst (bulk db o updates))
  /\ ((fun e => (e_row_id e, e_position e)) <$> errors (fst (bulk db o updates)))
       `sublist_of` ((fun u => (u_row_id Value u, u_position Value u)) <$> updates).
Proof.
  split; [apply bulk_counts|]. split; [apply bulk_counts|].
  subst bulk. revert db.
  induction updates as [|update rest IH]; intros db; [constructor|].
  cbn [bulkUpdateTrees].
  destruct (getTreeByRowPosition db o _ _) as [tree|].
  - destruct (updateTree _ _ _ _ _) as [[t|] db1];
      specialize (IH db1);
      destruct (bulkUpdateTrees _ _ db1 o rest) as [result db'];
      cbn [fst errors fmap list_fmap] in *.
    + apply sublist_cons. exact IH.
    + apply sublist_skip. exact IH.
  - specialize (IH db).
    destruct (bulkUpdateTrees _ _ db o rest) as [result db'].
    cbn [fst errors fmap list_fmap] in *. apply sublist_skip. exact IH.
Qed.

(** X23.  Updates that set no field update nothing: when every update has
    only undefined fields, no tree is counted as updated, there is one error
    for each update, and the tables are left as they were. *)
Theorem bulk_update_needs_fields (db : Db) (o : string) (updates : list (Update Value)) :
  Forall (fun u => defined Value (u_fields Value u) = []) updates ->
  updated (fst (bulk db o updates)) = 0
  /\ length (errors (fst (bulk db o updates))) = length updates
  /\ snd (bulk db o updates) = db.
Proof.
  subst bulk. revert db.
  induction updates as [|update rest IH]; intros db Hall; [repeat split|].
  apply Forall_cons in Hall as [Hu Hrest].
  cbn [bulkUpdateTrees].
  destruct (getTreeByRowPosition db o _ _) as [tree|].
  - unfold updateTree. rewrite Hu.
    specialize (IH db Hrest).
    destruct (bulkUpdateTrees _ _ db o rest) as [result db'].
    cbn [fst snd updated errors length] in *.
    destruct IH as (-> & -> & ->). repeat split.
  - specialize (IH db Hrest).
    destruct (bulkUpdateTrees _ _ db o rest) as [result db'].
    cbn [fst snd updated errors length] in *.
    destruct IH as (-> & -> & ->). repeat split.
Qed.

(** X24.  For a signed-in request with an orchard id and a non-empty array
    of updates that all carry [row_id] and [position], the route reports the
    number of updates as total and answers 200 with no errors when all were
    updated, 207 with the errors when some but not all were, and 400 with
    the errors when none was. *)
Theorem bulk_route_status
  (db : Db) (body : BulkBody Value) (o : string) (updates : list (RawUpdate Value)) :
  Upload.present (body_orchard_id Value body) = Some o ->
  body_updates Value body = Some updates ->
  updates <> [] ->
  first_malformed Value updates 0 = None ->
  exists status success message n es,
    fst (bulk_POST Value sql_update toDate truthyValue true db body)
    = BulkAnswer status success message n (Z.of_nat (length updates)) es
    /\ ((status = 200 /\ success = true /\ n = Z.of_nat (length updates) /\ es = None)
        \/ (status = 207 /\ success = true /\ 0 < n < Z.of_nat (length updates)
            /\ exists l, es = Some l /\ n + Z.of_nat (length l) = Z.of_nat (length updates))
        \/ (status = 400 /\ success = false /\ n = 0
            /\ exists l, es = Some l /\ length l = length updates)).
Proof.
  intros Ho Hupdates Hne Hwell. unfold bulk_POST. cbn [negb].
  rewrite Ho, Hupdates.
  destruct updates as [|u us]; [contradiction|]. rewrite Hwell.
  pose proof (bulk_counts db o (List.map (process Value toDate truthyValue) (u :: us)))
    as [Hsum Hpos].
  subst bulk.
  destruct (bulkUpdateTrees _ _ db o _) as [result db'].
  cbn [fst] in Hsum, Hpos. rewrite length_map in Hsum.
  destruct (Z.eqb_spec (updated result) 0) as [H0|H0];
    destruct (Z.ltb_spec 0 (Z.of_nat (length (errors result)))) as [He|He];
    cbn [andb fst].
  - do 5 eexists. split; [reflexivity|]. right; right.
    repeat split; [exact H0|]. eexists. split; [reflexivity|]. lia.
  - exfalso. cbn [length] in Hsum. lia.
  - replace (0 <? updated result) with true by (symmetry; apply Z.ltb_lt; lia).
    cbn [andb]. do 5 eexists. split; [reflexivity|]. right; left.
    repeat split; [lia | lia|]. eexists. split; [reflexivity|]. lia.
  - rewrite andb_false_r. do 5 eexists. split; [reflexivity|]. left.
    repeat split. lia.
Qed.

End Engine.

Lemma bulk_update_needs_fields_witness :
  fst (bulkUpdateTrees string sample_update sample_db "washington"
         [ {| u_row_id := "1"; u_position := 2; u_fields := [("variety", None)] |} ])
  = {| updated := 0;
       errors := [ {| e_row_id := "1"; e_position := 2; e_error := "Update failed" |} ] |}.
Proof.
  destruct (bulk_update_needs_fields string sample_update sample_db "washington"
              [ {| u_row_id := "1"; u_position := 2; u_fields := [("variety", None)] |} ])
    as (Hupdated & _ & _); [repeat constructor|].
  reflexivity.
Defined.

Lemma bulk_route_status_witness :
  exists message,
    fst (bulk_POST string sample_update (fun v => v) (fun _ => true) true sample_db
           {| body_orchard_id := Some "washington";
              body_updates :=
                Some [ {| raw_row_id := Some "1"; raw_position := Some 1;
                          raw_fields := [("variety", Some "Fuji")] |};
                       {| raw_row_id := Some "9"; raw_position := Some 1;
                          raw_fields := [("variety", Some "Gala")] |} ] |})
    = BulkAnswer 207 true message 1 2
        (Some [ {| e_row_id := "9"; e_position := 1;
                   e_error := "Tree not found at row 9, position 1" |} ]).
Proof.
  destruct (bulk_route_status string sample_update (fun v => v) (fun _ => true) sample_db
              {| body_orchard_id := Some "washington";
                 body_updates :=
                   Some [ {| raw_row_id := Some "1"; raw_position := Some 1;
                             raw_fields := [("variety", Some "Fuji")] |};
                          {| raw_row_id := Some "9"; raw_position := Some 1;
                             raw_fields := [("variety", Some "Gala")] |} ] |}
              "washington" _ eq_refl eq_refl)
    as (status & success & message & n & es & Hanswer & _);
    [discriminate | reflexivity |].
  eexists. reflexivity.
Defined.

End BulkUpdateProofs.

(** ** The route that creates a tree *)

Module TreesRouteProofs.
Import Js Trees TreesDb TreesRoute.

Section Route.

Variable column_error : TreeBody -> option string.


(** X26.  When the row and position are free but a tree already carries the
    id that would be generated, as after the same position of a row id that
    differs only in padding, the route answers 500 rather than 409, and the
    tables are left as they were. *)
Theorem id_collision_is_500 (db : Db) (body : TreeBody) (o r : string) (p : Z) (t : Tree) :
  Upload.present (b_orchard_id body) = Some o ->
  Upload.present (b_row_id body) = Some r ->
  b_position body = Some p ->
  1 <= p ->
  checkDuplicateRowPosition db o r p = false ->
  t ∈ trees db ->
  tree_id t = generateTreeId o r p ->
  exists details,
    POST column_error true db body
    = (TreeFailure 500 "Failed to create tree" (Some details), db).
Proof.
  intros Ho Hr Hpos Hp Hdup Hin Hid. unfold POST. cbn [negb].
  rewrite Ho, Hr, Hpos.
  replace (p <? 1) with false by (symmetry; apply Z.ltb_ge; lia).
  rewrite Hdup.
  destruct (column_error body); [eauto|].
  unfold insertTree. cbn [d_position d_orchard_id d_row_id].
  assert (Hone : o <> EmptyString).
  { destruct (b_orchard_id body) as [[|c s]|]; cbn in Ho; congruence. }
  assert (Hrne : r <> EmptyString).
  { destruct (b_row_id body) as [[|c s]|]; cbn in Hr; congruence. }
  rewrite !bool_decide_eq_false_2 by assumption. cbn [orb]. rewrite Hdup.
  unfold insert_row. cbn [tree_id].
  replace (existsb _ (trees db)) with true; [eauto|].
  symmetry. apply existsb_exists. exists t.
  split; [by apply list_elem_of_In|]. apply bool_decide_eq_true. exact Hid.
Qed.

End Route.


Lemma id_collision_is_500_witness :
  exists details,
    POST (fun _ => None) true sample_db padded_body
    = (TreeFailure 500 "Failed to create tree" (Some details), sample_db).
Proof.
  apply (id_collision_is_500 (fun _ => None) sample_db padded_body
           "washington" "01" 2 (tree_at "washington" "1" 2));
    try reflexivity; [lia | right; left].
Defined.

End TreesRouteProofs.

(** ** The CSV line parser *)

Module CsvParserProofs.
Import Js CsvParser.

Lemma has_char_app (c : ascii) (a b : string) :
  has_char c (a ++ b) = has_char c a || has_char c b.
Proof.
  induction a as [|x a IH]; [reflexivity|].
  rewrite SlugProofs.append_cons. cbn [has_char]. rewrite IH. apply orb_assoc.
Qed.

Lemma parse_nonempty (line current : string) (inQuotes : bool) :
  exists value values, parseCSVLine_from line current inQuotes = value :: values.
Proof.
  revert current inQuotes. induction line as [|char rest IH]; intros current inQuotes.
  - eexists _, _. reflexivity.
  - cbn [parseCSVLine_from]. destruct (Ascii.eqb char _); [apply IH|].
    destruct (_ && _); [eexists _, _; reflexivity | apply IH].
Qed.

(** Inside quotes, a cell without quotes is read to its end. *)
Lemma parse_inside_quotes (cell rest current : string) :
  has_char (ascii_of_N 34) cell = false ->
  parseCSVLine_from (cell ++ rest) current true
  = parseCSVLine_from rest (current ++ cell) true.
Proof.
  revert current. induction cell as [|c cell IH]; intros current Hq.
  - rewrite SlugProofs.append_nil_r. reflexivity.
  - cbn [has_char] in Hq. apply orb_false_iff in Hq as [Hc Hq].
    rewrite SlugProofs.append_cons. cbn [parseCSVLine_from]. rewrite Hc.
    rewrite andb_false_r, (IH _ Hq), TreesProofs.append_assoc. reflexivity.
Qed.

Lemma parse_quoted (cell rest current : string) :
  has_char (ascii_of_N 34) cell = false ->
  parseCSVLine_from (quote cell ++ rest) current false
  = parseCSVLine_from rest (current ++ cell) false.
Proof.
  intros Hq. unfold quote, dq.
  rewrite !TreesProofs.append_assoc, SlugProofs.append_cons.
  cbn [parseCSVLine_from]. rewrite Ascii.eqb_refl. cbn [negb].
  change (EmptyString ++ cell ++ String (ascii_of_N 34) EmptyString ++ rest)
    with (cell ++ String (ascii_of_N 34) (EmptyString ++ rest)).
  rewrite (parse_inside_quotes _ _ _ Hq).
  cbn [parseCSVLine_from]. rewrite Ascii.eqb_refl. reflexivity.
Qed.

(** X27.  A row written as the template writes it is read back cell by
    cell, commas inside cells included, when the row has a cell and no cell
    holds a double quote. *)
Theorem written_row_read_back (cells : list string) :
  cells <> [] ->
  Forall (fun cell => has_char (ascii_of_N 34) cell = false) cells ->
  parseCSVLine (write_row cells) = cells.
Proof.
  unfold parseCSVLine, write_row.
  induction cells as [|cell [|cell' rest] IH]; intros Hne Hq; [contradiction| |].
  - apply Forall_cons in Hq as [Hq _]. cbn [List.map join].
    rewrite <- (SlugProofs.append_nil_r (quote cell)), (parse_quoted _ _ _ Hq).
    reflexivity.
  - apply Forall_cons in Hq as [Hq Hrest].
    change (join (List.map quote (cell :: cell' :: rest)))
      with (quote cell ++ "," ++ join (List.map quote (cell' :: rest))).
    rewrite (parse_quoted _ _ _ Hq).
    change ("," ++ join (List.map quote (cell' :: rest)))
      with (String "," (join (List.map quote (cell' :: rest)))).
    cbn [parseCSVLine_from]. cbn [Ascii.eqb Bool.eqb andb negb].
    rewrite IH by (discriminate || exact Hrest). reflexivity.
Qed.

Lemma written_row_read_back_witness :
  parseCSVLine (write_row sample_row) = sample_row.
Proof.
  apply (written_row_read_back sample_row); [discriminate|].
  repeat constructor.
Defined.

Lemma join_from (line current : string) :
  has_char (ascii_of_N 34) line = false ->
  join (parseCSVLine_from line current false) = current ++ line.
Proof.
  revert current. induction line as [|char rest IH]; intros current Hq.
  - rewrite SlugProofs.append_nil_r. reflexivity.
  - cbn [has_char] in Hq. apply orb_false_iff in Hq as [Hc Hq].
    cbn [parseCSVLine_from]. rewrite Hc. cbn [negb]. rewrite andb_true_r.
    destruct (Ascii.eqb_spec char ","%char) as [->|Hcomma].
    + destruct (parse_nonempty rest EmptyString false) as (value & values & Hparse).
      pose proof (IH EmptyString Hq) as Hjoin. rewrite Hparse in Hjoin |- *.
      change (join (current :: value :: values))
        with (current ++ "," ++ join (value :: values)).
      rewrite Hjoin. reflexivity.
    + rewrite (IH _ Hq), TreesProofs.append_assoc. reflexivity.
Qed.

Lemma values_without_quotes (line current : string) (inQuotes : bool) :
  has_char (ascii_of_N 34) current = false ->
  Forall (fun value => has_char (ascii_of_N 34) value = false)
    (parseCSVLine_from line current inQuotes).
Proof.
  revert current inQuotes. induction line as [|char rest IH]; intros current inQuotes Hq.
  - repeat constructor. exact Hq.
  - cbn [parseCSVLine_from]. destruct (Ascii.eqb char (ascii_of_N 34)) eqn:Hc.
    + apply IH. exact Hq.
    + destruct (_ && _).
      * constructor; [exact Hq | apply IH; reflexivity].
      * apply IH. rewrite has_char_app, Hq. cbn [has_char orb]. rewrite Hc. reflexivity.
Qed.

(** X28.  No field the parser returns holds a double quote, there is always
    at least one field, and for a line without double quotes joining the
    fields with commas gives the line back. *)
Theorem fields_of_a_line (line : string) :
  Forall (fun value => has_char (ascii_of_N 34) value = false) (parseCSVLine line)
  /\ parseCSVLine line <> []
  /\ (has_char (ascii_of_N 34) line = false -> join (parseCSVLine line) = line).
Proof.
  unfold parseCSVLine. split; [apply values_without_quotes; reflexivity|]. split.
  - destruct (parse_nonempty line EmptyString false) as (value & values & ->).
    discriminate.
  - intros Hq. apply (join_from line EmptyString Hq).
Qed.

Lemma fields_of_a_line_witness :
  join (parseCSVLine "1,2,Gala,stressed") = "1,2,Gala,stressed".
Proof.
  destruct (fields_of_a_line "1,2,Gala,stressed") as (_ & _ & Hjoin).
  apply Hjoin. reflexivity.
Defined.

End CsvParserProofs.

(** ** Tree counts *)

Module TreesCountProofs.
Import Js Trees TreesDb.

(** X29.  When [insertTree] resolves, the count of the trees of that orchard
    grows by one and the count of every other orchard stays as it was. *)
Theorem insertTree_counts (db db' : Db) (d : TreeInsertData) (t : Tree) :
  insertTree db d = Resolved (t, db') ->
  getTreesCount db' (d_orchard_id d) = getTreesCount db (d_orchard_id d) + 1
  /\ forall o, o <> d_orchard_id d -> getTreesCount db' o = getTreesCount db o.
Proof.
  intros Hins.
  destruct (TreesDbProofs.insertTree_inv _ _ _ _ Hins)
    as (p & _ & _ & _ & _ & _ & _ & Ht & ->).
  unfold getTreesCount. cbn [trees]. split.
  - rewrite List.filter_app, length_app. subst t. cbn [List.filter orchard_id].
    rewrite bool_decide_eq_true_2 by reflexivity. cbn [length]. lia.
  - intros o Ho. rewrite List.filter_app, length_app. subst t.
    cbn [List.filter orchard_id].
    rewrite bool_decide_eq_false_2 by congruence. cbn [length]. lia.
Qed.

Lemma insertTree_counts_witness :
  exists t db',
    insertTree sample_db
      {| d_orchard_id := "washington"; d_row_id := "2"; d_position := Some 1;
         d_lat := None; d_lng := None; d_otherFields := [] |}
    = Resolved (t, db')
    /\ getTreesCount db' "washington" = 3.
Proof.
  eexists _, _. split; [reflexivity|].
  destruct (insertTree_counts sample_db _
              {| d_orchard_id := "washington"; d_row_id := "2"; d_position := Some 1;
                 d_lat := None; d_lng := None; d_otherFields := [] |} _ eq_refl)
    as [Hcount _].
  etransitivity; [exact Hcount | reflexivity].
Defined.

End TreesCountProofs.
